(** * Agent verifier and airdrop eligibility: a shallow embedding

    This development embeds [src/verifier.py] (class [MCPVerifier] and the
    module-level tables next to it) and proves properties of the
    verification pipeline, the trust ledger and the rate limiter.

    Conventions of the embedding.
    - Python [int] is [Z]; [len] of a list is a [nat].
    - A [datetime] is the number of microseconds on the time line, a [Z];
      a [timedelta] is a difference of two of them.  The ledger stores
      [datetime.now().isoformat()] and reads it back with
      [datetime.fromisoformat]; the two are inverse to each other at
      microsecond resolution, so a record holds the reading itself.
    - [self] is threaded through a state monad [M].  Every evaluation of
      [datetime.now()] is a reading of its own, supplied by a [Clock].
    - The four remote lookups are answered by an [Oracles] record: what the
      helper coroutine returns to [verify_agent].  The endpoint probe keeps
      the HTTP outcome, since [_verify_mcp_endpoint] inspects the status.
    - A [str] is a [string], one [ascii] per character, so that [len] is
      [String.length] and [startswith] is [String.prefix].
    - An [AgentRecord] has no [__bool__] or [__len__]: [if existing:] tests
      for [None] only, a [match] on the lookup. *)

From stdpp Require Import gmap strings list fin_maps.
From Stdlib Require Import ZArith Lia.

Local Open Scope Z_scope.

(** ** Data model *)

(** [class TrustLevel(Enum)] *)
Inductive TrustLevel : Type :=
| UNKNOWN
| PENDING
| BASIC
| TRUSTED
| ESTABLISHED.

(** The [value] of an enum member. *)
Definition TrustLevel_value (l : TrustLevel) : Z :=
  match l with
  | UNKNOWN => 0
  | PENDING => 1
  | BASIC => 2
  | TRUSTED => 3
  | ESTABLISHED => 4
  end.

#[global] Instance TrustLevel_eq_dec : EqDecision TrustLevel.
Proof. solve_decision. Defined.

(** [@dataclass class AgentRecord]; the [metadata] dictionary is never read
    or written by the verifier and is left out. *)
Module AgentRecord.
Record t : Type := mk {
  address : string;
  github_repo : option string;
  bns_name : option string;
  trust_level : TrustLevel;
  total_airdrops_sats : Z;
  total_airdrops_stx : Z;
  verification_count : Z;
  first_seen : Z;
  last_activity : Z
}.

(** The three assignments of [_record_verification] on an existing record:
    [verification_count += 1], [last_activity = now],
    [trust_level = trust_level]. *)
Definition touch (now : Z) (level : TrustLevel) (r : t) : t :=
  {| address := address r;
     github_repo := github_repo r;
     bns_name := bns_name r;
     trust_level := level;
     total_airdrops_sats := total_airdrops_sats r;
     total_airdrops_stx := total_airdrops_stx r;
     verification_count := verification_count r + 1;
     first_seen := first_seen r;
     last_activity := now |}.
End AgentRecord.

(** The [reason] text of a result.  The stake message interpolates
    [min_stx_balance / 1_000_000], a float; the constructor keeps the
    integer it is computed from.  That division can raise, see
    [true_division_overflows] and [verify_agent_outcome]. *)
Inductive Reason : Type :=
| Invalid_Stacks_address
| Need_at_least (min_ustx : Z)
| Rate_limit_exceeded
| Verification_passed
| Insufficient_checks_passed.

(** [@dataclass class VerificationResult] *)
Module VerificationResult.
Record t : Type := mk {
  success : bool;
  checks_passed : list string;
  checks_failed : list string;
  trust_level : TrustLevel;
  eligible_for_airdrop : bool;
  airdrop_amount_sats : Z;
  airdrop_amount_stx : Z;
  reason : Reason
}.
End VerificationResult.

(** One entry of [AIRDROP_AMOUNTS]. *)
Record Amounts : Type := { sbtc_sats : Z; stx_ustx : Z }.

(** [AIRDROP_AMOUNTS]: a dictionary with three keys. *)
Definition AIRDROP_AMOUNTS (l : TrustLevel) : option Amounts :=
  match l with
  | BASIC => Some {| sbtc_sats := 1000; stx_ustx := 100000 |}
  | TRUSTED => Some {| sbtc_sats := 5000; stx_ustx := 500000 |}
  | ESTABLISHED => Some {| sbtc_sats := 10000; stx_ustx := 1000000 |}
  | _ => None
  end.

(** [AIRDROP_AMOUNTS.get(trust_level, {"sbtc_sats": 0, "stx_ustx": 0})] *)
Definition AIRDROP_AMOUNTS_get (l : TrustLevel) : Amounts :=
  default {| sbtc_sats := 0; stx_ustx := 0 |} (AIRDROP_AMOUNTS l).

Definition MAX_AIRDROPS_PER_DAY : Z := 10.
Definition MAX_AIRDROPS_PER_ADDRESS : Z := 5.
Definition COOLDOWN_HOURS : Z := 24.

(** [timedelta(hours=h)], in microseconds. *)
Definition timedelta_hours (h : Z) : Z := h * 3600000000.

(** The state of an [MCPVerifier] object. *)
Record MCPVerifier : Type := {
  api_url : string;
  min_stx_balance : Z;
  verified_agents : gmap string AgentRecord.t;
  daily_airdrop_count : Z;
  last_reset : Z
}.

(** [MCPVerifier.__init__]; [now] is the reading taken by the constructor. *)
Definition MCPVerifier_init (url : string) (min_balance now : Z) : MCPVerifier :=
  {| api_url := url;
     min_stx_balance := min_balance;
     verified_agents := ∅;
     daily_airdrop_count := 0;
     last_reset := now |}.

Definition set_verified_agents (m : gmap string AgentRecord.t) (v : MCPVerifier)
  : MCPVerifier :=
  {| api_url := api_url v;
     min_stx_balance := min_stx_balance v;
     verified_agents := m;
     daily_airdrop_count := daily_airdrop_count v;
     last_reset := last_reset v |}.

Definition set_daily_airdrop_count (n : Z) (v : MCPVerifier) : MCPVerifier :=
  {| api_url := api_url v;
     min_stx_balance := min_stx_balance v;
     verified_agents := verified_agents v;
     daily_airdrop_count := n;
     last_reset := last_reset v |}.

Definition set_last_reset (t : Z) (v : MCPVerifier) : MCPVerifier :=
  {| api_url := api_url v;
     min_stx_balance := min_stx_balance v;
     verified_agents := verified_agents v;
     daily_airdrop_count := daily_airdrop_count v;
     last_reset := t |}.

(** ** The state monad of methods on [self] *)

Definition M (A : Type) : Type := MCPVerifier -> A * MCPVerifier.

Definition ret {A : Type} (a : A) : M A := fun v => (a, v).

Definition bind {A B : Type} (c : M A) (k : A -> M B) : M B :=
  fun v => let (a, v') := c v in k a v'.

Definition self : M MCPVerifier := fun v => (v, v).

Definition update (f : MCPVerifier -> MCPVerifier) : M unit :=
  fun v => (tt, f v).

Notation "x <~ c ;; k" := (bind c (fun x => k))
  (at level 63, c at next level, right associativity).
Notation "c ;;; k" := (bind c (fun _ => k))
  (at level 63, right associativity).

(** ** The environment of one request *)

(** The four evaluations of [datetime.now()] a request can make, in program
    order: the window test and the window restart of [_check_rate_limits],
    its cooldown test, and the time stamp of [_record_verification]. *)
Record Clock : Type := {
  now_window : Z;
  now_restart : Z;
  now_cooldown : Z;
  now_commit : Z
}.

(** Outcome of [client.post(endpoint, ...)]: a response with its status
    code, or an exception (connection failure, timeout). *)
Inductive Probe : Type :=
| Responded (status_code : Z)
| Raised.

(** What the remote lookups give back during one request. *)
Record Oracles : Type := {
  stx_balance : Z;
  github_mcp : bool;
  mcp_probe : Probe;
  bns_owned : bool
}.

(** Truth value of an [Optional[str]] argument: [None] and the empty string
    are false. *)
Definition truthy (s : option string) : bool :=
  match s with
  | Some EmptyString => false
  | Some _ => true
  | None => false
  end.

(** ** Methods *)

(** [_is_valid_stacks_address] *)
Definition _is_valid_stacks_address (address : string) : bool :=
  (String.prefix "SP" address || String.prefix "ST" address)
  && (30 <=? String.length address)%nat.

(** [_check_stx_balance]: the balance the lookup reports (0 when it fails). *)
Definition _check_stx_balance (o : Oracles) (address : string) : Z :=
  stx_balance o.

(** [_verify_github_mcp] *)
Definition _verify_github_mcp (o : Oracles) (repo : option string) : bool :=
  github_mcp o.

(** [resp.status_code in [200, 400, 405]] *)
Definition status_alive (code : Z) : bool :=
  bool_decide (code ∈ [200; 400; 405]).

(** [_verify_mcp_endpoint]: the [try] returns the membership test, the
    [except] falls through to [return False]. *)
Definition _verify_mcp_endpoint_of (p : Probe) : bool :=
  match p with
  | Responded code => status_alive code
  | Raised => false
  end.

Definition _verify_mcp_endpoint (o : Oracles) (endpoint : option string) : bool :=
  _verify_mcp_endpoint_of (mcp_probe o).

(** [_verify_bns_ownership] *)
Definition _verify_bns_ownership (o : Oracles) (address : string)
    (name : option string) : bool :=
  bns_owned o.

(** [_fail_result] *)
Definition _fail_result (passed failed : list string) (why : Reason)
  : VerificationResult.t :=
  {| VerificationResult.success := false;
     VerificationResult.checks_passed := passed;
     VerificationResult.checks_failed := failed;
     VerificationResult.trust_level := UNKNOWN;
     VerificationResult.eligible_for_airdrop := false;
     VerificationResult.airdrop_amount_sats := 0;
     VerificationResult.airdrop_amount_stx := 0;
     VerificationResult.reason := why |}.

(** The tail of [_calculate_trust_level], reached by new agents and by
    records below both count thresholds. *)
Definition level_of_checks (checks_passed : list string) : TrustLevel :=
  if (4 <=? length checks_passed)%nat then BASIC
  else if (2 <=? length checks_passed)%nat then PENDING
  else UNKNOWN.

(** [_calculate_trust_level] *)
Definition _calculate_trust_level (checks_passed : list string)
    (address : string) : M TrustLevel :=
  v <~ self ;;
  let existing := verified_agents v !! address in
  match existing with
  | Some r =>
      if 5 <=? AgentRecord.verification_count r then ret ESTABLISHED
      else if 2 <=? AgentRecord.verification_count r then ret TRUSTED
      else ret (level_of_checks checks_passed)
  | None => ret (level_of_checks checks_passed)
  end.

(** [_check_rate_limits] *)
Definition _check_rate_limits (clk : Clock) (address : string) : M bool :=
  v <~ self ;;
  (if timedelta_hours 24 <? now_window clk - last_reset v
   then update (set_daily_airdrop_count 0) ;;;
        update (set_last_reset (now_restart clk))
   else ret tt) ;;;
  v <~ self ;;
  if MAX_AIRDROPS_PER_DAY <=? daily_airdrop_count v then ret false
  else
    let existing := verified_agents v !! address in
    match existing with
    | Some r =>
        let last := AgentRecord.last_activity r in
        if now_cooldown clk - last <? timedelta_hours COOLDOWN_HOURS
        then ret false
        else if MAX_AIRDROPS_PER_ADDRESS <=? AgentRecord.verification_count r
        then ret false
        else ret true
    | None => ret true
    end.

(** [_record_verification] *)
Definition _record_verification (clk : Clock) (address : string)
    (github_repo bns_name : option string) (trust_level : TrustLevel) : M unit :=
  let now := now_commit clk in
  v <~ self ;;
  let existing := verified_agents v !! address in
  (match existing with
   | Some r =>
       update (set_verified_agents
                 (<[address := AgentRecord.touch now trust_level r]>
                    (verified_agents v)))
   | None =>
       update (set_verified_agents
                 (<[address := AgentRecord.mk address github_repo bns_name
                                 trust_level 0 0 1 now now]>
                    (verified_agents v)))
   end) ;;;
  v <~ self ;;
  update (set_daily_airdrop_count (daily_airdrop_count v + 1)).

(** [verify_agent]: the result the coroutine returns.  The one place where
    it can raise instead, the message of the stake failure, is added by
    [verify_agent_outcome] below. *)
Definition verify_agent (o : Oracles) (clk : Clock) (agent_address : string)
    (github_repo mcp_endpoint bns_name : option string)
  : M VerificationResult.t :=
  let checks_passed : list string := [] in
  let checks_failed : list string := [] in
  (* Check 1: address format *)
  if _is_valid_stacks_address agent_address then
    let checks_passed := checks_passed ++ ["valid_address"] in
    (* Check 2: minimum balance *)
    let balance := _check_stx_balance o agent_address in
    v <~ self ;;
    if min_stx_balance v <=? balance then
      let checks_passed := checks_passed ++ ["min_balance"] in
      (* Check 3: repository *)
      let '(checks_passed, checks_failed) :=
        if truthy github_repo then
          if _verify_github_mcp o github_repo
          then (checks_passed ++ ["github_mcp"], checks_failed)
          else (checks_passed, checks_failed ++ ["github_mcp_missing"])
        else (checks_passed, checks_failed) in
      (* Check 4: endpoint *)
      let '(checks_passed, checks_failed) :=
        if truthy mcp_endpoint then
          if _verify_mcp_endpoint o mcp_endpoint
          then (checks_passed ++ ["mcp_endpoint"], checks_failed)
          else (checks_passed, checks_failed ++ ["mcp_endpoint_down"])
        else (checks_passed, checks_failed) in
      (* Check 5: name, a bonus *)
      let checks_passed :=
        if truthy bns_name then
          if _verify_bns_ownership o agent_address bns_name
          then checks_passed ++ ["bns_verified"]
          else checks_passed
        else checks_passed in
      trust_level <~ _calculate_trust_level checks_passed agent_address ;;
      allowed <~ _check_rate_limits clk agent_address ;;
      if negb allowed then
        ret (_fail_result checks_passed checks_failed Rate_limit_exceeded)
      else
        let eligible :=
          (3 <=? length checks_passed)%nat
          && bool_decide ("min_balance" ∈ checks_passed) in
        let airdrop_amounts := AIRDROP_AMOUNTS_get trust_level in
        (if eligible
         then _record_verification clk agent_address github_repo bns_name
                trust_level
         else ret tt) ;;;
        ret {| VerificationResult.success := eligible;
               VerificationResult.checks_passed := checks_passed;
               VerificationResult.checks_failed := checks_failed;
               VerificationResult.trust_level := trust_level;
               VerificationResult.eligible_for_airdrop := eligible;
               VerificationResult.airdrop_amount_sats :=
                 if eligible then sbtc_sats airdrop_amounts else 0;
               VerificationResult.airdrop_amount_stx :=
                 if eligible then stx_ustx airdrop_amounts else 0;
               VerificationResult.reason :=
                 if eligible then Verification_passed
                 else Insufficient_checks_passed |}
    else
      let checks_failed := checks_failed ++ ["insufficient_balance"] in
      ret (_fail_result checks_passed checks_failed
             (Need_at_least (min_stx_balance v)))
  else
    let checks_failed := checks_failed ++ ["invalid_address"] in
    ret (_fail_result checks_passed checks_failed Invalid_Stacks_address).

(** ** The exception of the stake message *)

(** [n / d] on two [int]s with [d] positive is the quotient rounded to the
    nearest float, ties to even.  It raises [OverflowError] ("integer
    division result too large for a float") when that is beyond the largest
    float, [2^1024 - 2^971]: from the midpoint [2^1024 - 2^970] on, in
    absolute value. *)
Definition true_division_overflows (n d : Z) : bool :=
  (2 ^ 1024 - 2 ^ 970) * d <=? Z.abs n.

(** How a call of [verify_agent] ends. *)
Inductive Outcome : Type :=
| Returned (result : VerificationResult.t)
| OverflowError.

(** [verify_agent] as the caller sees it.  On a stake failure the reason is
    built with [f"Need at least {self.min_stx_balance / 1_000_000} STX"]
    before [_fail_result] is called; when that division overflows, the
    coroutine raises and the verifier is left as it was.  Nothing else in
    the coroutine raises: its lookups swallow their exceptions. *)
Definition verify_agent_outcome (o : Oracles) (clk : Clock)
    (agent_address : string)
    (github_repo mcp_endpoint bns_name : option string) : M Outcome :=
  v <~ self ;;
  if _is_valid_stacks_address agent_address
     && negb (min_stx_balance v <=? _check_stx_balance o agent_address)
     && true_division_overflows (min_stx_balance v) 1000000
  then ret OverflowError
  else
    result <~ verify_agent o clk agent_address github_repo mcp_endpoint
                bns_name ;;
    ret (Returned result).

(** ** Sequences of requests *)

(** The arguments of one call of [verify_agent]. *)
Record Request : Type := {
  req_address : string;
  req_github_repo : option string;
  req_mcp_endpoint : option string;
  req_bns_name : option string
}.

(** A call together with the environment it runs in. *)
Record Call : Type := {
  call_oracles : Oracles;
  call_clock : Clock;
  call_request : Request
}.

Definition verify_call (c : Call) : M VerificationResult.t :=
  verify_agent (call_oracles c) (call_clock c)
    (req_address (call_request c)) (req_github_repo (call_request c))
    (req_mcp_endpoint (call_request c)) (req_bns_name (call_request c)).

(** Calls awaited one after the other on the same verifier. *)
Fixpoint run_calls (cs : list Call) : M (list VerificationResult.t) :=
  match cs with
  | [] => ret []
  | c :: cs' =>
      r <~ verify_call c ;;
      rs <~ run_calls cs' ;;
      ret (r :: rs)
  end.

(** How many of the calls [cs], whose results are [rs], were successful
    verifications of [address]. *)
Fixpoint successes (address : string) (cs : list Call)
    (rs : list VerificationResult.t) : Z :=
  match cs, rs with
  | c :: cs', r :: rs' =>
      (if bool_decide (req_address (call_request c) = address)
          && VerificationResult.eligible_for_airdrop r
       then 1 else 0) + successes address cs' rs'
  | _, _ => 0
  end.

(** ** Concurrent requests

    [verify_agent] is a coroutine: it can be suspended at its four [await]
    expressions and nowhere else, and other coroutines of the event loop run
    on the same [MCPVerifier] while it is suspended.  A [Frame] is the
    point at which a coroutine is suspended, with its two local lists. *)
Inductive Frame : Type :=
| Created
| At_balance (checks_passed checks_failed : list string)
| At_github (checks_passed checks_failed : list string)
| At_endpoint (checks_passed checks_failed : list string)
| At_bns (checks_passed checks_failed : list string)
| Finished (result : VerificationResult.t).

(** From "Calculate trust level" to the final [return]: the part of
    [verify_agent] after its last [await]. *)
Definition settle (clk : Clock) (rq : Request)
    (checks_passed checks_failed : list string) : M VerificationResult.t :=
  trust_level <~ _calculate_trust_level checks_passed (req_address rq) ;;
  allowed <~ _check_rate_limits clk (req_address rq) ;;
  if negb allowed then
    ret (_fail_result checks_passed checks_failed Rate_limit_exceeded)
  else
    let eligible :=
      (3 <=? length checks_passed)%nat
      && bool_decide ("min_balance" ∈ checks_passed) in
    let airdrop_amounts := AIRDROP_AMOUNTS_get trust_level in
    (if eligible
     then _record_verification clk (req_address rq) (req_github_repo rq)
            (req_bns_name rq) trust_level
     else ret tt) ;;;
    ret {| VerificationResult.success := eligible;
           VerificationResult.checks_passed := checks_passed;
           VerificationResult.checks_failed := checks_failed;
           VerificationResult.trust_level := trust_level;
           VerificationResult.eligible_for_airdrop := eligible;
           VerificationResult.airdrop_amount_sats :=
             if eligible then sbtc_sats airdrop_amounts else 0;
           VerificationResult.airdrop_amount_stx :=
             if eligible then stx_ustx airdrop_amounts else 0;
           VerificationResult.reason :=
             if eligible then Verification_passed
             else Insufficient_checks_passed |}.

(** Control reaches check 5: suspend in its [await], or skip it. *)
Definition enter_check5 (clk : Clock) (rq : Request)
    (checks_passed checks_failed : list string) : M Frame :=
  if truthy (req_bns_name rq) then ret (At_bns checks_passed checks_failed)
  else r <~ settle clk rq checks_passed checks_failed ;; ret (Finished r).

(** Control reaches check 4. *)
Definition enter_check4 (clk : Clock) (rq : Request)
    (checks_passed checks_failed : list string) : M Frame :=
  if truthy (req_mcp_endpoint rq)
  then ret (At_endpoint checks_passed checks_failed)
  else enter_check5 clk rq checks_passed checks_failed.

(** Control reaches check 3. *)
Definition enter_check3 (clk : Clock) (rq : Request)
    (checks_passed checks_failed : list string) : M Frame :=
  if truthy (req_github_repo rq)
  then ret (At_github checks_passed checks_failed)
  else enter_check4 clk rq checks_passed checks_failed.

(** The event loop resumes a coroutine: it runs from its frame to the next
    [await] or to its [return].  [o] answers the lookup it was awaiting.
    A stake failure is shown as it returns; when its message cannot be
    formatted ([true_division_overflows]) the coroutine ends by raising
    instead, with the same effect on the verifier, none. *)
Definition resume (o : Oracles) (clk : Clock) (rq : Request) (fr : Frame)
  : M Frame :=
  match fr with
  | Created =>
      if _is_valid_stacks_address (req_address rq)
      then ret (At_balance ["valid_address"] [])
      else ret (Finished (_fail_result [] ["invalid_address"]
                            Invalid_Stacks_address))
  | At_balance checks_passed checks_failed =>
      let balance := _check_stx_balance o (req_address rq) in
      v <~ self ;;
      if min_stx_balance v <=? balance
      then enter_check3 clk rq (checks_passed ++ ["min_balance"]) checks_failed
      else ret (Finished (_fail_result checks_passed
                            (checks_failed ++ ["insufficient_balance"])
                            (Need_at_least (min_stx_balance v))))
  | At_github checks_passed checks_failed =>
      if _verify_github_mcp o (req_github_repo rq)
      then enter_check4 clk rq (checks_passed ++ ["github_mcp"]) checks_failed
      else enter_check4 clk rq checks_passed
             (checks_failed ++ ["github_mcp_missing"])
  | At_endpoint checks_passed checks_failed =>
      if _verify_mcp_endpoint o (req_mcp_endpoint rq)
      then enter_check5 clk rq (checks_passed ++ ["mcp_endpoint"]) checks_failed
      else enter_check5 clk rq checks_passed
             (checks_failed ++ ["mcp_endpoint_down"])
  | At_bns checks_passed checks_failed =>
      let checks_passed :=
        if _verify_bns_ownership o (req_address rq) (req_bns_name rq)
        then checks_passed ++ ["bns_verified"]
        else checks_passed in
      r <~ settle clk rq checks_passed checks_failed ;; ret (Finished r)
  | Finished r => ret (Finished r)
  end.

(** A coroutine of the event loop. *)
Record Task : Type := { task_request : Request; task_frame : Frame }.

(** One turn of the event loop: task number [turn_task] is resumed. *)
Record Turn : Type := {
  turn_task : nat;
  turn_oracles : Oracles;
  turn_clock : Clock
}.

Definition run_turn (t : Turn) (pool : list Task) : M (list Task) :=
  match pool !! turn_task t with
  | Some tk =>
      fr <~ resume (turn_oracles t) (turn_clock t) (task_request tk)
              (task_frame tk) ;;
      ret (<[turn_task t := {| task_request := task_request tk;
                               task_frame := fr |}]> pool)
  | None => ret pool
  end.

(** A schedule is any sequence of turns. *)
Fixpoint run_schedule (sched : list Turn) (pool : list Task)
  : M (list Task) :=
  match sched with
  | [] => ret pool
  | t :: sched' => pool' <~ run_turn t pool ;; run_schedule sched' pool'
  end.

(** The task finished with a successful verification of [address]. *)
Definition won (address : string) (tk : Task) : bool :=
  match task_frame tk with
  | Finished r =>
      bool_decide (req_address (task_request tk) = address)
      && VerificationResult.success r
  | _ => false
  end.

(** How many tasks of the pool did. *)
Fixpoint wins (address : string) (pool : list Task) : nat :=
  match pool with
  | [] => 0
  | tk :: pool' => (if won address tk then 1 else 0) + wins address pool'
  end.

(** [n] turns of the same coroutine with nothing in between. *)
Fixpoint resume_times (n : nat) (o : Oracles) (clk : Clock) (rq : Request)
    (fr : Frame) : M Frame :=
  match n with
  | O => ret fr
  | S n' => fr' <~ resume o clk rq fr ;; resume_times n' o clk rq fr'
  end.

(** Every reading of the turn lies in the window [[t0, t0 + cooldown)]. *)
Definition within_cooldown (t0 : Z) (t : Turn) : Prop :=
  t0 <= now_commit (turn_clock t)
  /\ now_cooldown (turn_clock t) < t0 + timedelta_hours COOLDOWN_HOURS.

(** ** The transition function as the design document words it *)

(** "No existing record: [checks_passed_count >= 4] gives BASIC, [>= 2]
    gives PENDING, else UNKNOWN." *)
Definition fresh_level (checks_passed_count : nat) : TrustLevel :=
  if decide (4 <= checks_passed_count)%nat then BASIC
  else if decide (2 <= checks_passed_count)%nat then PENDING
  else UNKNOWN.

(** "Existing record with [verification_count >= 5]: ESTABLISHED; with
    [verification_count >= 2]: TRUSTED; otherwise the rule for no record." *)
Definition next_level (existing : option AgentRecord.t)
    (checks_passed_count : nat) : TrustLevel :=
  match existing with
  | None => fresh_level checks_passed_count
  | Some r =>
      if decide (5 <= AgentRecord.verification_count r) then ESTABLISHED
      else if decide (2 <= AgentRecord.verification_count r) then TRUSTED
      else fresh_level checks_passed_count
  end.

(** ** Auxiliary views of the pipeline, used by the proofs *)

(** The list [checks_passed] once checks 1 to 5 have run. *)
Definition passed_after_checks (o : Oracles)
    (github_repo mcp_endpoint bns_name : option string) : list string :=
  ["valid_address"; "min_balance"]
  ++ (if truthy github_repo && github_mcp o then ["github_mcp"] else [])
  ++ (if truthy mcp_endpoint && _verify_mcp_endpoint_of (mcp_probe o)
      then ["mcp_endpoint"] else [])
  ++ (if truthy bns_name && bns_owned o then ["bns_verified"] else []).

(** The list [checks_failed] once checks 1 to 5 have run. *)
Definition failed_after_checks (o : Oracles)
    (github_repo mcp_endpoint : option string) : list string :=
  (if truthy github_repo && negb (github_mcp o)
   then ["github_mcp_missing"] else [])
  ++ (if truthy mcp_endpoint && negb (_verify_mcp_endpoint_of (mcp_probe o))
      then ["mcp_endpoint_down"] else []).

Definition request_of (agent_address : string)
    (github_repo mcp_endpoint bns_name : option string) : Request :=
  {| req_address := agent_address;
     req_github_repo := github_repo;
     req_mcp_endpoint := mcp_endpoint;
     req_bns_name := bns_name |}.

(** The ledger entry written by a commit at [now]. *)
Definition committed (now : Z) (address : string)
    (github_repo bns_name : option string) (level : TrustLevel)
    (existing : option AgentRecord.t) : AgentRecord.t :=
  match existing with
  | Some r => AgentRecord.touch now level r
  | None => AgentRecord.mk address github_repo bns_name level 0 0 1 now now
  end.

(** ** Fixtures: the inputs of the repository's tests *)

Definition valid_address : string :=
  "SP3N0NQ47ABAZV68PQSJY7V2H4F2J709ATTESYBRD".

(** [MCPVerifier(api_url="https://api.hiro.so", min_stx_balance=100_000)],
    constructed at time 0. *)
Definition verifier : MCPVerifier :=
  MCPVerifier_init "https://api.hiro.so" 100000 0.

(** A clock whose four readings are [h] hours after time 0. *)
Definition at_hour (h : Z) : Clock :=
  {| now_window := timedelta_hours h;
     now_restart := timedelta_hours h;
     now_cooldown := timedelta_hours h;
     now_commit := timedelta_hours h |}.

(** Every lookup succeeds; the balance is exactly the minimum. *)
Definition all_pass : Oracles :=
  {| stx_balance := 100000;
     github_mcp := true;
     mcp_probe := Responded 200;
     bns_owned := true |}.

(** A full request for [valid_address], made [h] hours after time 0 with
    every lookup succeeding. *)
Definition full_call (h : Z) : Call :=
  {| call_oracles := all_pass;
     call_clock := at_hour h;
     call_request := request_of valid_address (Some "test/mcp-agent")
                       (Some "https://mcp.test.com") None |}.

(** The verifier after one successful verification of [valid_address] at
    hour 1, with repository and endpoint evidence. *)
Definition verifier_after_first : MCPVerifier :=
  snd (verify_agent all_pass (at_hour 1) valid_address
         (Some "test/mcp-agent") (Some "https://mcp.test.com") None verifier).

(** The ledger of the rate-limit tests: one record for [valid_address] with
    the given count and last activity. *)
Definition verifier_with_record (count last : Z) : MCPVerifier :=
  set_verified_agents
    {[ valid_address :=
         AgentRecord.mk valid_address None None BASIC 0 0 count last last ]}
    verifier.

(** Two requests for [valid_address] made at once, resumed in turn. *)
Definition two_requests : list Task :=
  [ {| task_request := call_request (full_call 1); task_frame := Created |};
    {| task_request := call_request (full_call 1); task_frame := Created |} ].

Definition turn_of (i : nat) : Turn :=
  {| turn_task := i; turn_oracles := all_pass; turn_clock := at_hour 1 |}.

Definition alternating : list Turn :=
  turn_of <$> [0; 1; 0; 1; 0; 1; 0; 1]%nat.

(** ** Invariants and auxiliary notions of the proofs *)

(** The state [_check_rate_limits] leaves behind: the lazy restart of the
    daily window, and nothing else. *)
Definition after_window (clk : Clock) (v : MCPVerifier) : MCPVerifier :=
  if timedelta_hours 24 <? now_window clk - last_reset v
  then set_last_reset (now_restart clk) (set_daily_airdrop_count 0 v)
  else v.

(** The eligibility test of [verify_agent]. *)
Definition enough (cp : list string) : bool :=
  (3 <=? length cp)%nat && bool_decide ("min_balance" ∈ cp).

Definition call_address (c : Call) : string := req_address (call_request c).

(** Within one request the clock does not run backwards between the
    cooldown test and the commit. *)
Definition clock_ordered (c : Call) : Prop :=
  now_cooldown (call_clock c) <= now_commit (call_clock c).

(** Every record counts the successful verifications of its address, [n]
    of them, and there is a record exactly for the addresses with one. *)
Definition ledger_counts (v : MCPVerifier) (n : string -> Z) : Prop :=
  forall a,
    match verified_agents v !! a with
    | Some r => AgentRecord.verification_count r = n a /\ 1 <= n a
    | None => n a = 0
    end.

Definition ledger_times (v : MCPVerifier) : Prop :=
  forall a r,
    verified_agents v !! a = Some r ->
    AgentRecord.first_seen r <= AgentRecord.last_activity r.

(** The invariant of a burst of requests: no award yet for [a], or one
    award and a record whose [last_activity] lies inside the burst. *)
Definition award_inv (t0 : Z) (a : string) (pool : list Task)
    (v : MCPVerifier) : Prop :=
  wins a pool = 0%nat
  \/ (wins a pool = 1%nat
      /\ exists r, verified_agents v !! a = Some r
                   /\ t0 <= AgentRecord.last_activity r).

(** The statement of C8 as the design words it: a request that passes the
    format and stake checks and is denied by the rate limiter gets amounts
    0 and 0 and the trust level computed from the ledger and its checks. *)
Definition denied_reports_computed_level (o : Oracles) (clk : Clock)
    (a : string) (g e b : option string) (v : MCPVerifier) : Prop :=
  _is_valid_stacks_address a = true ->
  min_stx_balance v <= stx_balance o ->
  fst (_check_rate_limits clk a v) = false ->
  let res := fst (verify_agent o clk a g e b v) in
  VerificationResult.airdrop_amount_sats res = 0
  /\ VerificationResult.airdrop_amount_stx res = 0
  /\ VerificationResult.trust_level res
     = fst (_calculate_trust_level (VerificationResult.checks_passed res) a v).

(** ** Statistics *)

(** The dictionary returned by [get_stats]; [trust_distribution] has one
    entry per member of [TrustLevel]. *)
Record Stats : Type := {
  total_verified : nat;
  daily_airdrops : Z;
  max_daily : Z;
  trust_distribution : TrustLevel -> nat
}.

(** [self.verified_agents.values()] *)
Definition agent_records (v : MCPVerifier) : list AgentRecord.t :=
  snd <$> map_to_list (verified_agents v).

(** [sum(1 for a in records if a.trust_level == level)] *)
Definition count_level (level : TrustLevel) (rs : list AgentRecord.t) : nat :=
  length (filter (fun a => AgentRecord.trust_level a = level) rs).

(** [get_stats] *)
Definition get_stats : M Stats :=
  v <~ self ;;
  ret {| total_verified := size (verified_agents v);
         daily_airdrops := daily_airdrop_count v;
         max_daily := MAX_AIRDROPS_PER_DAY;
         trust_distribution :=
           fun level => count_level level (agent_records v) |}.

(** ** The repository lookup over HTTP *)

(** Outcome of one [client.get]: a response with status code and text, or
    an exception. *)
Inductive Reply : Type :=
| Answered (status_code : Z) (text : string)
| Failed.

(** [needle in hay] on strings. *)
Fixpoint contains (needle hay : string) : bool :=
  String.prefix needle hay
  || match hay with
     | EmptyString => false
     | String _ hay' => contains needle hay'
     end.

(** [f"https://raw.githubusercontent.com/{repo}/main/{path}"] *)
Definition raw_url (repo path : string) : string :=
  "https://raw.githubusercontent.com/" +:+ repo +:+ "/main/" +:+ path.

Module Lookup.
Section Github.

(** [str.lower], left abstract; and the web, which answers each URL the
    lookup requests (it requests none twice). *)
Variable lower : string -> string.
Variable get : string -> Reply.

(** The [for config_path in ...] loop of [_verify_github_mcp], inside its
    [try]: an exception leaves the loop and the function returns [False]. *)
Fixpoint config_loop (repo : string) (config_paths : list string) : bool :=
  match config_paths with
  | [] => false
  | config_path :: rest =>
      match get (raw_url repo config_path) with
      | Answered code _ => if code =? 200 then true else config_loop repo rest
      | Failed => false
      end
  end.

(** [_verify_github_mcp], request by request. *)
Definition _verify_github_mcp (repo : string) : bool :=
  match get (raw_url repo "package.json") with
  | Answered code text =>
      if (code =? 200)
         && (let content := lower text in
             contains "@aibtc/mcp-server" content || contains "mcp" content)
      then true
      else config_loop repo ["mcp.json"; ".mcp/config.json"; "claude.json"]
  | Failed => false
  end.

End Github.
End Lookup.

(** ** The other lookups over HTTP *)

#[local] Set Warnings "-register-all".

(** A decoded JSON document, as [resp.json()] returns it.  A float is kept
    as the result of [int] on it, the only thing the verifier asks of one
    ([None] for nan and the infinities, where [int] raises); a dictionary
    as its lookup function. *)
Inductive JSON : Type :=
| JNull
| JBool (b : bool)
| JInt (n : Z)
| JFloat (as_int : option Z)
| JStr (s : string)
| JList (items : list JSON)
| JDict (items : string -> option JSON).

(** [d.get(key, fallback)]; [None] is the [AttributeError] raised when [d]
    is not a dictionary. *)
Definition json_get (d : JSON) (key : string) (fallback : JSON)
  : option JSON :=
  match d with
  | JDict items => Some (default fallback (items key))
  | _ => None
  end.

(** [x == s] for a string [s]. *)
Definition json_is_str (x : JSON) (s : string) : bool :=
  match x with
  | JStr t => bool_decide (t = s)
  | _ => false
  end.

Module Remote.
Section Web.

(** Left abstract: [int] on a [str] and [resp.json()] on the text of a
    response ([None] where they raise), and [str.lower].  The web answers
    each GET with a [Reply] and each POST with a [Probe]. *)
Variable int_of_str : string -> option Z.
Variable json : string -> option JSON.
Variable lower : string -> string.
Variable get : string -> Reply.
Variable post : string -> Probe.

(** [int(x)], [None] where it raises. *)
Definition py_int (x : JSON) : option Z :=
  match x with
  | JInt n => Some n
  | JBool b => Some (if b then 1 else 0)
  | JFloat as_int => as_int
  | JStr s => int_of_str s
  | JNull | JList _ | JDict _ => None
  end.

(** [_check_stx_balance]: every exception inside the [try] is swallowed
    and the function falls through to [return 0]. *)
Definition _check_stx_balance (api_url address : string) : Z :=
  match get (api_url +:+ "/extended/v1/address/" +:+ address +:+ "/balances")
  with
  | Answered code text =>
      if code =? 200 then
        default 0
          (data ← json text;
           stx ← json_get data "stx" (JDict (fun _ => None));
           balance ← json_get stx "balance" (JInt 0);
           py_int balance)
      else 0
  | Failed => 0
  end.

(** [_verify_bns_ownership] *)
Definition _verify_bns_ownership (api_url address bns_name : string) : bool :=
  match get (api_url +:+ "/v1/names/" +:+ bns_name) with
  | Answered code text =>
      if code =? 200 then
        default false
          (data ← json text;
           owner ← json_get data "address" JNull;
           Some (json_is_str owner address))
      else false
  | Failed => false
  end.

(** [_verify_mcp_endpoint] *)
Definition _verify_mcp_endpoint (endpoint : string) : bool :=
  _verify_mcp_endpoint_of (post endpoint).

(** What the four lookups of one request return.  A lookup whose argument
    is [None] is not made; its field is then never read. *)
Definition oracles (api_url address : string)
    (github_repo mcp_endpoint bns_name : option string) : Oracles :=
  {| stx_balance := _check_stx_balance api_url address;
     github_mcp :=
       match github_repo with
       | Some repo => Lookup._verify_github_mcp lower get repo
       | None => false
       end;
     mcp_probe :=
       match mcp_endpoint with
       | Some endpoint => post endpoint
       | None => Raised
       end;
     bns_owned :=
       match bns_name with
       | Some name => _verify_bns_ownership api_url address name
       | None => false
       end |}.

(** [verify_agent] with its lookups made on this web. *)
Definition run_verify_agent (clk : Clock) (agent_address : string)
    (github_repo mcp_endpoint bns_name : option string)
  : M VerificationResult.t :=
  v <~ self ;;
  verify_agent
    (oracles (api_url v) agent_address github_repo mcp_endpoint bns_name)
    clk agent_address github_repo mcp_endpoint bns_name.

End Web.
End Remote.

(** ** Totals over a sequence of calls *)

(** The sats granted to [address] by the calls [cs] with results [rs]. *)
Fixpoint paid_sats (address : string) (cs : list Call)
    (rs : list VerificationResult.t) : Z :=
  match cs, rs with
  | c :: cs', r :: rs' =>
      (if bool_decide (req_address (call_request c) = address)
       then VerificationResult.airdrop_amount_sats r else 0)
      + paid_sats address cs' rs'
  | _, _ => 0
  end.

(** The microSTX granted to [address]. *)
Fixpoint paid_stx (address : string) (cs : list Call)
    (rs : list VerificationResult.t) : Z :=
  match cs, rs with
  | c :: cs', r :: rs' =>
      (if bool_decide (req_address (call_request c) = address)
       then VerificationResult.airdrop_amount_stx r else 0)
      + paid_stx address cs' rs'
  | _, _ => 0
  end.

(** The number of eligible results among [rs]. *)
Fixpoint awards (rs : list VerificationResult.t) : Z :=
  match rs with
  | [] => 0
  | r :: rs' =>
      (if VerificationResult.eligible_for_airdrop r then 1 else 0) + awards rs'
  end.

(** The largest total an address can have been granted after [n] successful
    verifications: the first two at most at the BASIC rate, the later ones
    at the TRUSTED rate. *)
Definition sats_after (n : Z) : Z :=
  if n <=? 2 then 1000 * n else 2000 + 5000 * (n - 2).

(** The daily counter is within its cap. *)
Definition daily_within_cap (v : MCPVerifier) : Prop :=
  0 <= daily_airdrop_count v <= MAX_AIRDROPS_PER_DAY.

(** Every record is filed under its own address, has had between one and
    [MAX_AIRDROPS_PER_ADDRESS] verifications, carries a level that an
    eligible request can have, and has totals still at 0. *)
Definition record_sound (a : string) (r : AgentRecord.t) : Prop :=
  AgentRecord.address r = a
  /\ 1 <= AgentRecord.verification_count r <= MAX_AIRDROPS_PER_ADDRESS
  /\ AgentRecord.trust_level r ∈ [PENDING; BASIC; TRUSTED]
  /\ AgentRecord.total_airdrops_sats r = 0
  /\ AgentRecord.total_airdrops_stx r = 0.

Definition ledger_sound (v : MCPVerifier) : Prop :=
  forall a r, verified_agents v !! a = Some r -> record_sound a r.

(** The totals [paid], one per address, stay within what the count of the
    address allows. *)
Definition ledger_paid (v : MCPVerifier) (paid : string -> Z) : Prop :=
  forall a,
    0 <= paid a
    /\ match verified_agents v !! a with
       | Some r => paid a <= sats_after (AgentRecord.verification_count r)
       | None => paid a = 0
       end.

(** [address] has a record whose last activity is not before [t]. *)
Definition active_since (address : string) (t : Z) (v : MCPVerifier) : Prop :=
  exists r, verified_agents v !! address = Some r
            /\ t <= AgentRecord.last_activity r.

(** The calls of the cap example: eleven identities ask within the first
    day of a new verifier. *)
Definition eleven_calls : list Call :=
  (fun suffix =>
     {| call_oracles := all_pass;
        call_clock := at_hour 1;
        call_request := request_of (valid_address +:+ suffix)
                          (Some "test/mcp-agent")
                          (Some "https://mcp.test.com") None |})
  <$> ["0"; "1"; "2"; "3"; "4"; "5"; "6"; "7"; "8"; "9"; "A"].

(** ** Basic facts about the methods *)

Ltac run_monad :=
  unfold bind, ret, self, update; simpl.

Ltac split_ifs :=
  repeat match goal with
         | |- context [if ?c then _ else _] => destruct c; cbn -[Z.mul]
         end.

Lemma fresh_level_of_checks (cp : list string) :
  level_of_checks cp = fresh_level (length cp).
Proof.
  unfold level_of_checks, fresh_level.
  destruct (4 <=? length cp)%nat eqn:H4; destruct (decide (4 <= length cp)%nat);
    try (apply Nat.leb_le in H4; lia); try (apply Nat.leb_gt in H4; lia);
    try reflexivity.
  destruct (2 <=? length cp)%nat eqn:H2; destruct (decide (2 <= length cp)%nat);
    try (apply Nat.leb_le in H2; lia); try (apply Nat.leb_gt in H2; lia);
    reflexivity.
Qed.

Lemma calculate_trust_level_state (cp : list string) (a : string)
    (v : MCPVerifier) :
  snd (_calculate_trust_level cp a v) = v.
Proof.
  unfold _calculate_trust_level. run_monad.
  destruct (verified_agents v !! a) as [r|]; [|reflexivity].
  destruct (5 <=? _); [reflexivity|]. destruct (2 <=? _); reflexivity.
Qed.

Lemma calculate_trust_level_pair (cp : list string) (a : string)
    (v : MCPVerifier) :
  _calculate_trust_level cp a v = (fst (_calculate_trust_level cp a v), v).
Proof.
  rewrite <- (calculate_trust_level_state cp a v) at 3.
  apply surjective_pairing.
Qed.

Lemma check_rate_limits_state (clk : Clock) (a : string) (v : MCPVerifier) :
  snd (_check_rate_limits clk a v) = after_window clk v.
Proof.
  unfold _check_rate_limits, after_window, bind, ret, self, update.
  destruct (timedelta_hours 24 <? now_window clk - last_reset v); cbn -[Z.mul];
    (destruct (verified_agents v !! a) as [r|]); split_ifs; reflexivity.
Qed.

Lemma after_window_agents (clk : Clock) (v : MCPVerifier) :
  verified_agents (after_window clk v) = verified_agents v.
Proof. unfold after_window. destruct (_ <? _); reflexivity. Qed.

Lemma after_window_min (clk : Clock) (v : MCPVerifier) :
  min_stx_balance (after_window clk v) = min_stx_balance v.
Proof. unfold after_window. destruct (_ <? _); reflexivity. Qed.

(** The verdict of [_check_rate_limits], read off the state after the
    window restart. *)
Lemma check_rate_limits_verdict (clk : Clock) (a : string) (v : MCPVerifier) :
  fst (_check_rate_limits clk a v) =
  negb (MAX_AIRDROPS_PER_DAY <=? daily_airdrop_count (after_window clk v))
  && match verified_agents v !! a with
     | Some r =>
         negb (now_cooldown clk - AgentRecord.last_activity r
               <? timedelta_hours COOLDOWN_HOURS)
         && negb (MAX_AIRDROPS_PER_ADDRESS <=? AgentRecord.verification_count r)
     | None => true
     end.
Proof.
  unfold _check_rate_limits, after_window, bind, ret, self, update.
  destruct (timedelta_hours 24 <? now_window clk - last_reset v); cbn -[Z.mul];
    (destruct (verified_agents v !! a) as [r|]); split_ifs; reflexivity.
Qed.

Lemma record_verification_state (clk : Clock) (a : string)
    (g b : option string) (l : TrustLevel) (v : MCPVerifier) :
  snd (_record_verification clk a g b l v) =
  set_daily_airdrop_count (daily_airdrop_count v + 1)
    (set_verified_agents
       (<[a := committed (now_commit clk) a g b l (verified_agents v !! a)]>
          (verified_agents v)) v).
Proof.
  unfold _record_verification, committed. run_monad.
  destruct (verified_agents v !! a); reflexivity.
Qed.

(** [settle] in one equation. *)
Lemma settle_eq (clk : Clock) (rq : Request) (cp cf : list string)
    (v : MCPVerifier) :
  settle clk rq cp cf v =
  let lvl := fst (_calculate_trust_level cp (req_address rq) v) in
  let v1 := after_window clk v in
  if fst (_check_rate_limits clk (req_address rq) v) then
    if enough cp then
      ({| VerificationResult.success := true;
          VerificationResult.checks_passed := cp;
          VerificationResult.checks_failed := cf;
          VerificationResult.trust_level := lvl;
          VerificationResult.eligible_for_airdrop := true;
          VerificationResult.airdrop_amount_sats :=
            sbtc_sats (AIRDROP_AMOUNTS_get lvl);
          VerificationResult.airdrop_amount_stx :=
            stx_ustx (AIRDROP_AMOUNTS_get lvl);
          VerificationResult.reason := Verification_passed |},
       snd (_record_verification clk (req_address rq) (req_github_repo rq)
              (req_bns_name rq) lvl v1))
    else
      ({| VerificationResult.success := false;
          VerificationResult.checks_passed := cp;
          VerificationResult.checks_failed := cf;
          VerificationResult.trust_level := lvl;
          VerificationResult.eligible_for_airdrop := false;
          VerificationResult.airdrop_amount_sats := 0;
          VerificationResult.airdrop_amount_stx := 0;
          VerificationResult.reason := Insufficient_checks_passed |}, v1)
  else (_fail_result cp cf Rate_limit_exceeded, v1).
Proof.
  unfold settle. cbv zeta.
  change ((3 <=? length cp)%nat && bool_decide ("min_balance" ∈ cp))
    with (enough cp).
  unfold bind at 1. rewrite calculate_trust_level_pair.
  unfold bind at 1.
  rewrite (surjective_pairing (_check_rate_limits clk (req_address rq) v)).
  rewrite check_rate_limits_state.
  destruct (fst (_check_rate_limits clk (req_address rq) v)); cbn [negb];
    [|reflexivity].
  destruct (enough cp); unfold bind, ret.
  - destruct (_record_verification _ _ _ _ _ _) as [[] v2]. reflexivity.
  - reflexivity.
Qed.

(** [verify_agent] is its three early decisions followed by [settle]. *)
Lemma verify_agent_eq (o : Oracles) (clk : Clock) (a : string)
    (g e b : option string) (v : MCPVerifier) :
  verify_agent o clk a g e b v =
  if _is_valid_stacks_address a then
    if min_stx_balance v <=? stx_balance o then
      settle clk (request_of a g e b) (passed_after_checks o g e b)
        (failed_after_checks o g e) v
    else (_fail_result ["valid_address"] ["insufficient_balance"]
            (Need_at_least (min_stx_balance v)), v)
  else (_fail_result [] ["invalid_address"] Invalid_Stacks_address, v).
Proof.
  unfold verify_agent, passed_after_checks, failed_after_checks,
    _verify_mcp_endpoint, _verify_github_mcp, _verify_bns_ownership,
    _check_stx_balance.
  destruct (_is_valid_stacks_address a); [|reflexivity].
  unfold bind at 1, self at 1.
  destruct (min_stx_balance v <=? stx_balance o); [|reflexivity].
  destruct (truthy g), (github_mcp o), (truthy e),
    (_verify_mcp_endpoint_of (mcp_probe o)), (truthy b), (bns_owned o);
    reflexivity.
Qed.

(** ** The trust-level transition function *)

(** C3: [_calculate_trust_level] is exactly the transition function of the
    design: with an existing record, [verification_count >= 5] gives
    ESTABLISHED and otherwise [verification_count >= 2] gives TRUSTED,
    whatever the number of checks passed; with no record, or a record below
    both thresholds, 4 or more checks give BASIC, 2 or more PENDING, and
    fewer UNKNOWN.  The verifier is returned as it was received.  In
    particular a record with count 5 and a single check passed resolves to
    ESTABLISHED. *)
Theorem calculate_trust_level_is_next_level :
  (forall (cp : list string) (a : string) (v : MCPVerifier),
      _calculate_trust_level cp a v =
      (next_level (verified_agents v !! a) (length cp), v))
  /\ (forall (c a : string) (g b : option string) (l : TrustLevel)
        (sats stx seen last : Z) (m : gmap string AgentRecord.t)
        (v : MCPVerifier),
        fst (_calculate_trust_level [c] a
               (set_verified_agents
                  (<[a := AgentRecord.mk a g b l sats stx 5 seen last]> m) v))
        = ESTABLISHED).
Proof.
  split.
  - intros cp a v. unfold _calculate_trust_level, next_level. run_monad.
    destruct (verified_agents v !! a) as [r|].
    + destruct (Z.leb_spec 5 (AgentRecord.verification_count r));
        destruct (decide (5 <= AgentRecord.verification_count r));
        try lia; try reflexivity.
      destruct (Z.leb_spec 2 (AgentRecord.verification_count r));
        destruct (decide (2 <= AgentRecord.verification_count r));
        try lia; try reflexivity.
      now rewrite fresh_level_of_checks.
    + now rewrite fresh_level_of_checks.
  - intros. unfold _calculate_trust_level. run_monad.
    rewrite lookup_insert_eq. reflexivity.
Qed.

(** ** The endpoint probe *)

(** The probe passes exactly on the three listed status codes. *)
Lemma verify_mcp_endpoint_alive (code : Z) :
  _verify_mcp_endpoint_of (Responded code) = true
  <-> code = 200 \/ code = 400 \/ code = 405.
Proof.
  unfold _verify_mcp_endpoint_of, status_alive.
  rewrite bool_decide_eq_true. rewrite !elem_of_cons, elem_of_nil. tauto.
Qed.

(** C9, at the failing input: the endpoint answers the probe with an HTTP
    response of status 500 (or 404), and [_verify_mcp_endpoint] still
    returns [False]; [verify_agent] then records "mcp_endpoint_down". *)
Theorem verify_mcp_endpoint_rejects_error_status :
  _verify_mcp_endpoint_of (Responded 500) = false
  /\ _verify_mcp_endpoint_of (Responded 404) = false
  /\ VerificationResult.checks_failed
       (fst (verify_agent
               {| stx_balance := 100000; github_mcp := true;
                  mcp_probe := Responded 500; bns_owned := true |}
               (at_hour 1) valid_address None (Some "https://mcp.test.com")
               None verifier))
     = ["mcp_endpoint_down"].
Proof. repeat split; vm_compute; reflexivity. Qed.

(** ** Terminal checks *)

(** The coroutine raises exactly on a stake failure whose message cannot be
    formatted; otherwise it returns what [verify_agent] computes. *)
Lemma verify_agent_outcome_cases (o : Oracles) (clk : Clock) (a : string)
    (g e b : option string) (v : MCPVerifier) :
  (verify_agent_outcome o clk a g e b v = (OverflowError, v)
   /\ _is_valid_stacks_address a = true
   /\ stx_balance o < min_stx_balance v
   /\ true_division_overflows (min_stx_balance v) 1000000 = true)
  \/ (verify_agent_outcome o clk a g e b v
      = (Returned (fst (verify_agent o clk a g e b v)),
         snd (verify_agent o clk a g e b v))
      /\ (_is_valid_stacks_address a = false
          \/ min_stx_balance v <= stx_balance o
          \/ true_division_overflows (min_stx_balance v) 1000000 = false)).
Proof.
  assert (Hret : (let (r, w) := verify_agent o clk a g e b v in
                  (Returned r, w))
                 = (Returned (fst (verify_agent o clk a g e b v)),
                    snd (verify_agent o clk a g e b v)))
    by now destruct (verify_agent o clk a g e b v).
  unfold verify_agent_outcome, bind, ret, self, _check_stx_balance.
  destruct (_is_valid_stacks_address a); cbn [andb];
    [|right; split; [exact Hret|now left]].
  destruct (Z.leb_spec (min_stx_balance v) (stx_balance o)); cbn [andb negb];
    [right; split; [exact Hret|right; now left]|].
  destruct (true_division_overflows (min_stx_balance v) 1000000);
    [left; repeat split; assumption|].
  right. split; [exact Hret|right; now right].
Qed.

(** A minimum below 10^314 microSTX is far inside the range in which the
    stake message can be formatted. *)
Lemma small_minimum_formats (n : Z) :
  Z.abs n < 10 ^ 314 -> true_division_overflows n 1000000 = false.
Proof.
  intros Hsmall. unfold true_division_overflows. apply Z.leb_gt.
  eapply Z.lt_le_trans; [exact Hsmall|]. vm_compute. discriminate.
Qed.

(** C2: a malformed address ends the verification at once, with an ordinary
    result: not eligible, both amounts 0, "invalid_address" the only entry
    of either list.  A well-formed address whose balance is below the
    minimum ends it at once too: "insufficient_balance" is recorded, the
    result is not eligible and both amounts are 0, whatever other evidence
    was supplied; this for every minimum whose stake message can be
    formatted, that is, below [(2^1024 - 2^970) * 10^6] in absolute value.
    In both cases the coroutine returns and the verifier is left as it
    was. *)
Theorem format_and_stake_checks_are_terminal (o : Oracles) (clk : Clock)
    (a : string) (g e b : option string) (v : MCPVerifier) :
  (_is_valid_stacks_address a = false ->
   verify_agent o clk a g e b v =
   (VerificationResult.mk false [] ["invalid_address"] UNKNOWN false 0 0
      Invalid_Stacks_address, v)
   /\ verify_agent_outcome o clk a g e b v =
      (Returned
         (VerificationResult.mk false [] ["invalid_address"] UNKNOWN false 0 0
            Invalid_Stacks_address), v))
  /\ (_is_valid_stacks_address a = true ->
      stx_balance o < min_stx_balance v ->
      true_division_overflows (min_stx_balance v) 1000000 = false ->
      verify_agent o clk a g e b v =
      (VerificationResult.mk false ["valid_address"] ["insufficient_balance"]
         UNKNOWN false 0 0 (Need_at_least (min_stx_balance v)), v)
      /\ verify_agent_outcome o clk a g e b v =
         (Returned
            (VerificationResult.mk false ["valid_address"]
               ["insufficient_balance"] UNKNOWN false 0 0
               (Need_at_least (min_stx_balance v))), v)).
Proof.
  split.
  - intros Hvalid.
    assert (Hres : verify_agent o clk a g e b v =
                   (VerificationResult.mk false [] ["invalid_address"] UNKNOWN
                      false 0 0 Invalid_Stacks_address, v))
      by (rewrite verify_agent_eq, Hvalid; reflexivity).
    split; [exact Hres|].
    destruct (verify_agent_outcome_cases o clk a g e b v)
      as [(_ & Hyes & _)|[-> _]]; [congruence|].
    now rewrite Hres.
  - intros Hvalid Hlt Hfits.
    assert (Hres : verify_agent o clk a g e b v =
                   (VerificationResult.mk false ["valid_address"]
                      ["insufficient_balance"] UNKNOWN false 0 0
                      (Need_at_least (min_stx_balance v)), v)).
    { rewrite verify_agent_eq, Hvalid.
      apply Z.leb_gt in Hlt. rewrite Hlt. reflexivity. }
    split; [exact Hres|].
    destruct (verify_agent_outcome_cases o clk a g e b v)
      as [(_ & _ & _ & Hraises)|[-> _]]; [congruence|].
    now rewrite Hres.
Qed.

Lemma format_and_stake_checks_are_terminal_witness :
  _is_valid_stacks_address "SP123" = false
  /\ verify_agent_outcome all_pass (at_hour 1) "SP123" (Some "test/repo")
       (Some "https://mcp.test.com") None verifier
     = (Returned
          (VerificationResult.mk false [] ["invalid_address"] UNKNOWN false 0
             0 Invalid_Stacks_address), verifier)
  /\ verify_agent_outcome
       {| stx_balance := 99999; github_mcp := true;
          mcp_probe := Responded 200; bns_owned := true |}
       (at_hour 1) valid_address (Some "test/repo")
       (Some "https://mcp.test.com") (Some "agent.btc") verifier
     = (Returned
          (VerificationResult.mk false ["valid_address"]
             ["insufficient_balance"] UNKNOWN false 0 0
             (Need_at_least 100000)), verifier).
Proof.
  split; [reflexivity|]. split.
  - apply (proj1 (format_and_stake_checks_are_terminal all_pass (at_hour 1)
                    "SP123" (Some "test/repo") (Some "https://mcp.test.com")
                    None verifier)).
    reflexivity.
  - apply (proj2 (format_and_stake_checks_are_terminal
                    {| stx_balance := 99999; github_mcp := true;
                       mcp_probe := Responded 200; bns_owned := true |}
                    (at_hour 1) valid_address (Some "test/repo")
                    (Some "https://mcp.test.com") (Some "agent.btc")
                    verifier)).
    + reflexivity.
    + vm_compute. reflexivity.
    + vm_compute. reflexivity.
Defined.

(** A minimum of 10^315 microSTX: the stake failure raises instead of
    returning, and one of 10^314 still returns. *)
Example stake_message_overflow :
  fst (verify_agent_outcome all_pass (at_hour 1) valid_address None None None
         (MCPVerifier_init "https://api.hiro.so" (10 ^ 315) 0))
  = OverflowError
  /\ fst (verify_agent_outcome all_pass (at_hour 1) valid_address None None
            None (MCPVerifier_init "https://api.hiro.so" (10 ^ 314) 0))
     = Returned (_fail_result ["valid_address"] ["insufficient_balance"]
                   (Need_at_least (10 ^ 314))).
Proof. split; vm_compute; reflexivity. Qed.

(** ** The eligibility decision *)

Lemma passed_after_checks_min_balance (o : Oracles) (g e b : option string) :
  "min_balance" ∈ passed_after_checks o g e b.
Proof.
  unfold passed_after_checks. apply elem_of_app. left.
  rewrite !elem_of_cons. tauto.
Qed.

Lemma enough_passed_after_checks (o : Oracles) (g e b : option string) :
  enough (passed_after_checks o g e b)
  = (3 <=? length (passed_after_checks o g e b))%nat.
Proof.
  unfold enough. rewrite (bool_decide_eq_true_2 _
    (passed_after_checks_min_balance o g e b)). apply andb_true_r.
Qed.

(** C1: for a well-formed address whose balance is at least the minimum
    (equality included), the result is eligible exactly when the rate
    limiter allowed the request, the stake check is among the passed checks
    and at least 3 checks passed.  An eligible result carries the table
    amounts of the computed trust level; a result that is not eligible
    carries 0 and 0.  A first-time identity whose repository and endpoint
    checks both pass has 4 passed checks, level BASIC and the BASIC
    amounts. *)
Theorem eligibility_and_amounts (o : Oracles) (clk : Clock) (a : string)
    (g e b : option string) (v : MCPVerifier) :
  _is_valid_stacks_address a = true ->
  min_stx_balance v <= stx_balance o ->
  let res := fst (verify_agent o clk a g e b v) in
  let cp := VerificationResult.checks_passed res in
  let allowed := fst (_check_rate_limits clk a v) in
  let lvl := fst (_calculate_trust_level cp a v) in
  "min_balance" ∈ cp
  /\ VerificationResult.eligible_for_airdrop res
     = allowed && bool_decide ("min_balance" ∈ cp) && (3 <=? length cp)%nat
  /\ VerificationResult.success res
     = VerificationResult.eligible_for_airdrop res
  /\ (VerificationResult.eligible_for_airdrop res = true ->
      VerificationResult.trust_level res = lvl
      /\ VerificationResult.airdrop_amount_sats res
         = sbtc_sats (AIRDROP_AMOUNTS_get lvl)
      /\ VerificationResult.airdrop_amount_stx res
         = stx_ustx (AIRDROP_AMOUNTS_get lvl))
  /\ (VerificationResult.eligible_for_airdrop res = false ->
      VerificationResult.airdrop_amount_sats res = 0
      /\ VerificationResult.airdrop_amount_stx res = 0)
  /\ (verified_agents v !! a = None ->
      allowed = true ->
      truthy g = true -> _verify_github_mcp o g = true ->
      truthy e = true -> _verify_mcp_endpoint o e = true ->
      truthy b && _verify_bns_ownership o a b = false ->
      cp = ["valid_address"; "min_balance"; "github_mcp"; "mcp_endpoint"]
      /\ VerificationResult.eligible_for_airdrop res = true
      /\ VerificationResult.trust_level res = BASIC
      /\ AIRDROP_AMOUNTS BASIC
         = Some {| sbtc_sats := VerificationResult.airdrop_amount_sats res;
                   stx_ustx := VerificationResult.airdrop_amount_stx res |}).
Proof.
  intros Hvalid Hmin. apply Z.leb_le in Hmin. cbv zeta.
  rewrite verify_agent_eq, Hvalid, Hmin, settle_eq. cbv zeta.
  change (req_address (request_of a g e b)) with a.
  pose proof (passed_after_checks_min_balance o g e b) as Hin.
  pose proof (enough_passed_after_checks o g e b) as Hen.
  assert (Hfour : verified_agents v !! a = None ->
                  truthy g = true -> _verify_github_mcp o g = true ->
                  truthy e = true -> _verify_mcp_endpoint o e = true ->
                  truthy b && _verify_bns_ownership o a b = false ->
                  passed_after_checks o g e b
                  = ["valid_address"; "min_balance"; "github_mcp";
                     "mcp_endpoint"]
                  /\ fst (_calculate_trust_level
                            (passed_after_checks o g e b) a v) = BASIC).
  { unfold _verify_github_mcp, _verify_mcp_endpoint, _verify_bns_ownership,
      passed_after_checks.
    intros Hnone -> -> -> -> ->. split; [reflexivity|].
    unfold _calculate_trust_level. run_monad. now rewrite Hnone. }
  set (cp := passed_after_checks o g e b) in *.
  set (cf := failed_after_checks o g e).
  destruct (fst (_check_rate_limits clk a v)) eqn:Hallowed.
  - destruct (enough cp) eqn:Henough;
      cbn [fst VerificationResult.checks_passed
             VerificationResult.eligible_for_airdrop
             VerificationResult.success VerificationResult.trust_level
             VerificationResult.airdrop_amount_sats
             VerificationResult.airdrop_amount_stx];
      rewrite (bool_decide_eq_true_2 _ Hin), <- Hen; cbn [andb];
      refine (conj Hin (conj eq_refl (conj eq_refl (conj _ (conj _ _))))).
    + intros _. repeat split.
    + discriminate.
    + intros Hnone _ Hg Hgh He Hep Hb.
      destruct (Hfour Hnone Hg Hgh He Hep Hb) as [-> ->].
      repeat split.
    + discriminate.
    + intros _. split; reflexivity.
    + intros Hnone _ Hg Hgh He Hep Hb.
      destruct (Hfour Hnone Hg Hgh He Hep Hb) as [Hcp _].
      rewrite Hcp in Hen. discriminate.
  - cbn [fst _fail_result VerificationResult.checks_passed
           VerificationResult.eligible_for_airdrop
           VerificationResult.success VerificationResult.trust_level
           VerificationResult.airdrop_amount_sats
           VerificationResult.airdrop_amount_stx andb].
    refine (conj Hin (conj eq_refl (conj eq_refl (conj _ (conj _ _))))).
    + discriminate.
    + intros _. split; reflexivity.
    + intros _ Habs. discriminate.
Qed.

Lemma eligibility_and_amounts_witness :
  _is_valid_stacks_address valid_address = true
  /\ min_stx_balance verifier = stx_balance all_pass
  /\ fst (verify_agent all_pass (at_hour 1) valid_address
            (Some "test/mcp-agent") (Some "https://mcp.test.com") None
            verifier)
     = VerificationResult.mk true
         ["valid_address"; "min_balance"; "github_mcp"; "mcp_endpoint"] []
         BASIC true 1000 100000 Verification_passed.
Proof.
  split; [reflexivity|]. split; [reflexivity|].
  destruct (eligibility_and_amounts all_pass (at_hour 1) valid_address
              (Some "test/mcp-agent") (Some "https://mcp.test.com") None
              verifier eq_refl (Z.le_refl _))
    as (_ & _ & _ & _ & _ & Hfirst).
  destruct (Hfirst eq_refl eq_refl eq_refl eq_refl eq_refl eq_refl eq_refl)
    as (_ & _ & _ & _).
  vm_compute. reflexivity.
Defined.

(** ** Requests denied by the rate limiter *)

(** C8 fails on the scenario of the design itself: the second attempt, one
    hour after the first, is denied by the cooldown; the level computed for
    it is BASIC, as on the first attempt, but the result says UNKNOWN. *)
Lemma denied_reports_computed_level_fails :
  ~ denied_reports_computed_level all_pass (at_hour 2) valid_address
      (Some "test/mcp-agent") (Some "https://mcp.test.com") None
      verifier_after_first.
Proof.
  unfold denied_reports_computed_level. intros H.
  destruct (H eq_refl (Z.le_refl _) eq_refl) as (_ & _ & Hlvl).
  vm_compute in Hlvl. discriminate Hlvl.
Qed.

(** C8, amended: a request that passes the format and stake checks and is
    denied by the rate limiter gets the result of [_fail_result]: amounts 0
    and 0, not eligible, the lists of passed and failed checks as they
    stood, the rate-limit reason, and the trust level UNKNOWN whatever level
    was computed.  The ledger is not touched. *)
Theorem denied_reports_unknown (o : Oracles) (clk : Clock) (a : string)
    (g e b : option string) (v : MCPVerifier) :
  _is_valid_stacks_address a = true ->
  min_stx_balance v <= stx_balance o ->
  fst (_check_rate_limits clk a v) = false ->
  let res := fst (verify_agent o clk a g e b v) in
  res = VerificationResult.mk false (VerificationResult.checks_passed res)
          (VerificationResult.checks_failed res) UNKNOWN false 0 0
          Rate_limit_exceeded
  /\ verified_agents (snd (verify_agent o clk a g e b v)) = verified_agents v.
Proof.
  intros Hvalid Hmin Hdenied. apply Z.leb_le in Hmin. cbv zeta.
  rewrite verify_agent_eq, Hvalid, Hmin, settle_eq. cbv zeta.
  change (req_address (request_of a g e b)) with a. rewrite Hdenied.
  split; [reflexivity|]. apply after_window_agents.
Qed.

Lemma denied_reports_unknown_witness :
  fst (verify_agent all_pass (at_hour 2) valid_address
         (Some "test/mcp-agent") (Some "https://mcp.test.com") None
         verifier_after_first)
  = VerificationResult.mk false
      ["valid_address"; "min_balance"; "github_mcp"; "mcp_endpoint"] []
      UNKNOWN false 0 0 Rate_limit_exceeded.
Proof.
  destruct (denied_reports_unknown all_pass (at_hour 2) valid_address
              (Some "test/mcp-agent") (Some "https://mcp.test.com") None
              verifier_after_first eq_refl (Z.le_refl _) eq_refl) as [-> _].
  vm_compute. reflexivity.
Defined.

(** ** The name check is a bonus *)

Lemma passed_after_checks_name_failed (o : Oracles) (g e b : option string) :
  truthy b && bns_owned o = false ->
  passed_after_checks o g e b = passed_after_checks o g e None.
Proof. unfold passed_after_checks. intros ->. reflexivity. Qed.

Lemma settle_result_ignores_evidence (clk : Clock) (a : string)
    (g e b g' e' b' : option string) (cp cf : list string) (v : MCPVerifier) :
  fst (settle clk (request_of a g e b) cp cf v)
  = fst (settle clk (request_of a g' e' b') cp cf v).
Proof.
  rewrite !settle_eq. cbv zeta.
  change (req_address (request_of a g e b)) with a.
  change (req_address (request_of a g' e' b')) with a.
  destruct (fst (_check_rate_limits clk a v)); [|reflexivity].
  destruct (enough cp); reflexivity.
Qed.

Lemma settle_checks_failed (clk : Clock) (rq : Request) (cp cf : list string)
    (v : MCPVerifier) :
  VerificationResult.checks_failed (fst (settle clk rq cp cf v)) = cf.
Proof.
  rewrite settle_eq. cbv zeta.
  destruct (fst (_check_rate_limits clk (req_address rq) v)); [|reflexivity].
  destruct (enough cp); reflexivity.
Qed.

Lemma settle_checks_passed (clk : Clock) (rq : Request) (cp cf : list string)
    (v : MCPVerifier) :
  VerificationResult.checks_passed (fst (settle clk rq cp cf v)) = cp.
Proof.
  rewrite settle_eq. cbv zeta.
  destruct (fst (_check_rate_limits clk (req_address rq) v)); [|reflexivity].
  destruct (enough cp); reflexivity.
Qed.

(** C10: a name check that does not pass leaves no trace in [checks_failed].
    The failed list of a request is the failed list of the same request
    made without a name, it only ever holds the four failure names of
    checks 1 to 4, and when the supplied name is not confirmed the whole
    result is the one of the request without a name.  A failing repository
    or endpoint check is recorded; a passing name check appends
    "bns_verified" to [checks_passed]. *)
Theorem name_check_failure_is_not_recorded (o : Oracles) (clk : Clock)
    (a : string) (g e b : option string) (v : MCPVerifier) :
  let res := fst (verify_agent o clk a g e b v) in
  let res0 := fst (verify_agent o clk a g e None v) in
  VerificationResult.checks_failed res = VerificationResult.checks_failed res0
  /\ (forall c, c ∈ VerificationResult.checks_failed res ->
        c ∈ ["invalid_address"; "insufficient_balance"; "github_mcp_missing";
             "mcp_endpoint_down"])
  /\ (truthy b = true -> _verify_bns_ownership o a b = false -> res = res0)
  /\ (_is_valid_stacks_address a = true ->
      min_stx_balance v <= stx_balance o ->
      (truthy b = true -> _verify_bns_ownership o a b = true ->
       VerificationResult.checks_passed res
       = VerificationResult.checks_passed res0 ++ ["bns_verified"])
      /\ (truthy g = true -> _verify_github_mcp o g = false ->
          "github_mcp_missing" ∈ VerificationResult.checks_failed res)
      /\ (truthy e = true -> _verify_mcp_endpoint o e = false ->
          "mcp_endpoint_down" ∈ VerificationResult.checks_failed res)).
Proof.
  cbv zeta. rewrite !verify_agent_eq.
  destruct (_is_valid_stacks_address a).
  2:{ cbn. split; [reflexivity|]. split; [intros c; rewrite !elem_of_cons; tauto|].
      split; [reflexivity|discriminate]. }
  destruct (Z.leb_spec (min_stx_balance v) (stx_balance o)) as [Hle|Hlt].
  2:{ cbn. split; [reflexivity|]. split; [intros c; rewrite !elem_of_cons; tauto|].
      split; [reflexivity|lia]. }
  rewrite !settle_checks_failed, !settle_checks_passed.
  split; [reflexivity|]. split; [|split].
  - intros c. unfold failed_after_checks.
    destruct (truthy g && negb (github_mcp o)),
      (truthy e && negb (_verify_mcp_endpoint_of (mcp_probe o)));
      cbn [app]; rewrite !elem_of_cons; tauto.
  - unfold _verify_bns_ownership. intros Hb Hfail.
    rewrite (passed_after_checks_name_failed o g e b)
      by now rewrite Hb, Hfail.
    apply settle_result_ignores_evidence.
  - intros _ _. unfold _verify_bns_ownership, _verify_github_mcp,
      _verify_mcp_endpoint, passed_after_checks, failed_after_checks.
    split; [|split].
    + intros -> ->. cbn [truthy andb]. rewrite !app_nil_r.
      now rewrite <- !app_assoc.
    + intros -> ->. cbn [andb negb]. apply elem_of_app. left.
      apply list_elem_of_singleton. reflexivity.
    + intros -> ->. cbn [andb negb]. apply elem_of_app. right.
      apply list_elem_of_singleton. reflexivity.
Qed.

Lemma name_check_failure_is_not_recorded_witness :
  let unowned := {| stx_balance := 100000; github_mcp := true;
                    mcp_probe := Responded 200; bns_owned := false |} in
  fst (verify_agent unowned (at_hour 1) valid_address (Some "test/mcp-agent")
         None (Some "agent.btc") verifier)
  = VerificationResult.mk true ["valid_address"; "min_balance"; "github_mcp"]
      [] PENDING true 0 0 Verification_passed.
Proof.
  cbv zeta.
  destruct (name_check_failure_is_not_recorded
              {| stx_balance := 100000; github_mcp := true;
                 mcp_probe := Responded 200; bns_owned := false |}
              (at_hour 1) valid_address (Some "test/mcp-agent") None
              (Some "agent.btc") verifier) as (_ & _ & Hsame & _).
  rewrite (Hsame eq_refl eq_refl). vm_compute. reflexivity.
Defined.

(** ** What a request does to the verifier *)

(** The ledger after a call: a commit if the result is eligible, untouched
    otherwise. *)
Lemma verify_agent_ledger (o : Oracles) (clk : Clock) (a : string)
    (g e b : option string) (v : MCPVerifier) :
  let res := fst (verify_agent o clk a g e b v) in
  verified_agents (snd (verify_agent o clk a g e b v)) =
  if VerificationResult.eligible_for_airdrop res
  then <[a := committed (now_commit clk) a g b
                (VerificationResult.trust_level res)
                (verified_agents v !! a)]> (verified_agents v)
  else verified_agents v.
Proof.
  cbv zeta. rewrite verify_agent_eq.
  destruct (_is_valid_stacks_address a); [|reflexivity].
  destruct (min_stx_balance v <=? stx_balance o); [|reflexivity].
  rewrite settle_eq. cbv zeta.
  change (req_address (request_of a g e b)) with a.
  destruct (fst (_check_rate_limits clk a v));
    [|apply after_window_agents].
  destruct (enough _); [|apply after_window_agents].
  rewrite record_verification_state. cbn.
  now rewrite after_window_agents.
Qed.

(** An eligible result was allowed by the rate limiter. *)
Lemma verify_agent_eligible_allowed (o : Oracles) (clk : Clock) (a : string)
    (g e b : option string) (v : MCPVerifier) :
  VerificationResult.eligible_for_airdrop (fst (verify_agent o clk a g e b v))
  = true ->
  fst (_check_rate_limits clk a v) = true.
Proof.
  rewrite verify_agent_eq.
  destruct (_is_valid_stacks_address a); [|discriminate].
  destruct (min_stx_balance v <=? stx_balance o); [|discriminate].
  rewrite settle_eq. cbv zeta.
  change (req_address (request_of a g e b)) with a.
  destruct (fst (_check_rate_limits clk a v)); [reflexivity|discriminate].
Qed.

(** [success] and [eligible_for_airdrop] are the same flag. *)
Lemma verify_agent_success (o : Oracles) (clk : Clock) (a : string)
    (g e b : option string) (v : MCPVerifier) :
  VerificationResult.success (fst (verify_agent o clk a g e b v))
  = VerificationResult.eligible_for_airdrop
      (fst (verify_agent o clk a g e b v)).
Proof.
  rewrite verify_agent_eq.
  destruct (_is_valid_stacks_address a); [|reflexivity].
  destruct (min_stx_balance v <=? stx_balance o); [|reflexivity].
  rewrite settle_eq. cbv zeta.
  destruct (fst (_check_rate_limits _ _ _)); [|reflexivity].
  destruct (enough _); reflexivity.
Qed.

(** The daily counter and the window start after a call. *)
Lemma verify_agent_counter (o : Oracles) (clk : Clock) (a : string)
    (g e b : option string) (v : MCPVerifier) :
  let v' := snd (verify_agent o clk a g e b v) in
  (daily_airdrop_count v' = daily_airdrop_count v
   /\ last_reset v' = last_reset v)
  \/ (daily_airdrop_count v' = daily_airdrop_count v + 1
      /\ last_reset v' = last_reset v)
  \/ (timedelta_hours 24 < now_window clk - last_reset v
      /\ 0 <= daily_airdrop_count v' <= 1
      /\ last_reset v' = now_restart clk).
Proof.
  cbv zeta. rewrite verify_agent_eq.
  destruct (_is_valid_stacks_address a); [|now left].
  destruct (min_stx_balance v <=? stx_balance o); [|now left].
  rewrite settle_eq. cbv zeta.
  assert (Hw : (daily_airdrop_count (after_window clk v)
                = daily_airdrop_count v
                /\ last_reset (after_window clk v) = last_reset v)
               \/ (timedelta_hours 24 < now_window clk - last_reset v
                   /\ daily_airdrop_count (after_window clk v) = 0
                   /\ last_reset (after_window clk v) = now_restart clk)).
  { unfold after_window.
    destruct (Z.ltb_spec (timedelta_hours 24) (now_window clk - last_reset v));
      [right|left]; repeat split; assumption. }
  destruct (fst (_check_rate_limits _ _ _)).
  - destruct (enough _); cbn [snd].
    + rewrite record_verification_state. cbn.
      destruct Hw as [[-> ->]|(Hlt & -> & ->)]; [right; left|right; right];
        repeat split; try assumption; lia.
    + destruct Hw as [[-> ->]|(Hlt & -> & ->)]; [left|right; right];
        repeat split; try assumption; lia.
  - cbn [snd].
    destruct Hw as [[-> ->]|(Hlt & -> & ->)]; [left|right; right];
      repeat split; try assumption; lia.
Qed.

(** ** The daily window *)

(** C5: a call of the rate limiter restarts the daily window, setting the
    counter to 0 and the window start to the current reading, exactly when
    more than 24 hours have passed since the window start; otherwise it
    leaves both alone, and no request ever lowers the counter without such
    a restart.  Hence a request that was denied only by the daily cap is
    allowed once the clock has advanced by more than 24 hours, on a counter
    that is back at 0. *)
Theorem daily_window_reset :
  (forall (clk : Clock) (a : string) (v : MCPVerifier),
      let v' := snd (_check_rate_limits clk a v) in
      (timedelta_hours 24 < now_window clk - last_reset v ->
       daily_airdrop_count v' = 0 /\ last_reset v' = now_restart clk)
      /\ (now_window clk - last_reset v <= timedelta_hours 24 -> v' = v))
  /\ (forall (c : Call) (v : MCPVerifier),
        daily_airdrop_count (snd (verify_call c v)) < daily_airdrop_count v ->
        timedelta_hours 24 < now_window (call_clock c) - last_reset v)
  /\ (forall (clk clk' : Clock) (a : string) (v : MCPVerifier),
        last_reset v <= now_window clk ->
        fst (_check_rate_limits clk a v) = false ->
        fst (_check_rate_limits clk a (set_daily_airdrop_count 0 v)) = true ->
        timedelta_hours 24 < now_window clk' - now_window clk ->
        now_cooldown clk <= now_cooldown clk' ->
        let v1 := snd (_check_rate_limits clk a v) in
        fst (_check_rate_limits clk' a v1) = true
        /\ daily_airdrop_count (snd (_check_rate_limits clk' a v1)) = 0).
Proof.
  split; [|split].
  - intros clk a v. cbv zeta. rewrite check_rate_limits_state.
    unfold after_window.
    destruct (Z.ltb_spec (timedelta_hours 24) (now_window clk - last_reset v));
      split; intros; try lia; auto.
  - intros c v Hlt. unfold verify_call in Hlt.
    destruct (verify_agent_counter (call_oracles c) (call_clock c)
                (req_address (call_request c))
                (req_github_repo (call_request c))
                (req_mcp_endpoint (call_request c))
                (req_bns_name (call_request c)) v)
      as [[Hd _]|[[Hd _]|(Hw & _ & _)]]; [lia|lia|exact Hw].
  - intros clk clk' a v Hsane Hdenied Honly Hadv Hcool. cbv zeta.
    rewrite !check_rate_limits_state.
    rewrite check_rate_limits_verdict in Hdenied, Honly |- *.
    rewrite !after_window_agents.
    cbn [verified_agents set_daily_airdrop_count] in Honly.
    apply andb_true_iff in Honly as [_ Hident].
    assert (Hkeep : after_window clk v = v).
    { unfold after_window in *.
      destruct (timedelta_hours 24 <? now_window clk - last_reset v);
        [|reflexivity].
      cbn in Hdenied. rewrite Hident in Hdenied. discriminate. }
    rewrite Hkeep in *.
    assert (Hexp : now_window clk - last_reset v <= timedelta_hours 24).
    { unfold after_window in Hkeep.
      destruct (Z.ltb_spec (timedelta_hours 24)
                  (now_window clk - last_reset v)) as [Hlt|]; [|assumption].
      rewrite Hident, andb_true_r in Hdenied.
      apply negb_false_iff, Z.leb_le in Hdenied.
      apply (f_equal daily_airdrop_count) in Hkeep. cbn in Hkeep.
      unfold MAX_AIRDROPS_PER_DAY in Hdenied. lia. }
    assert (Hrestart : after_window clk' v
                       = set_last_reset (now_restart clk')
                           (set_daily_airdrop_count 0 v)).
    { unfold after_window.
      destruct (Z.ltb_spec (timedelta_hours 24)
                  (now_window clk' - last_reset v)); [reflexivity|lia]. }
    rewrite Hrestart. cbn [daily_airdrop_count set_last_reset
                             set_daily_airdrop_count].
    split; [|reflexivity].
    change (MAX_AIRDROPS_PER_DAY <=? 0) with false. cbn [negb andb].
    destruct (verified_agents v !! a) as [r|]; [|reflexivity].
    apply andb_true_iff in Hident as [Hc Hn]. rewrite Hn, andb_true_r.
    apply negb_true_iff, Z.ltb_ge in Hc.
    apply negb_true_iff, Z.ltb_ge. lia.
Qed.

Lemma daily_window_reset_witness :
  let capped := set_daily_airdrop_count MAX_AIRDROPS_PER_DAY verifier in
  fst (_check_rate_limits (at_hour 1) valid_address capped) = false
  /\ fst (_check_rate_limits (at_hour 26) valid_address
            (snd (_check_rate_limits (at_hour 1) valid_address capped)))
     = true
  /\ daily_airdrop_count
       (snd (_check_rate_limits (at_hour 26) valid_address
               (snd (_check_rate_limits (at_hour 1) valid_address capped))))
     = 0.
Proof.
  cbv zeta. split; [reflexivity|].
  destruct daily_window_reset as (_ & _ & Hagain).
  apply (Hagain (at_hour 1) (at_hour 26) valid_address
           (set_daily_airdrop_count MAX_AIRDROPS_PER_DAY verifier)).
  - vm_compute. discriminate.
  - reflexivity.
  - reflexivity.
  - vm_compute. reflexivity.
  - vm_compute. discriminate.
Defined.

(** ** Invariants of the ledger *)

Lemma run_calls_cons (c : Call) (cs : list Call) (v : MCPVerifier) :
  run_calls (c :: cs) v =
  (fst (verify_call c v) :: fst (run_calls cs (snd (verify_call c v))),
   snd (run_calls cs (snd (verify_call c v)))).
Proof.
  cbn [run_calls]. unfold bind, ret.
  destruct (verify_call c v) as [r v1]. cbn [fst snd].
  destruct (run_calls cs v1) as [rs v2]. reflexivity.
Qed.

Lemma run_calls_app (cs more : list Call) (v : MCPVerifier) :
  snd (run_calls (cs ++ more) v) = snd (run_calls more (snd (run_calls cs v))).
Proof.
  revert v. induction cs as [|c cs IH]; intros v; [reflexivity|].
  rewrite <- app_comm_cons, !run_calls_cons. cbn [snd]. apply IH.
Qed.

Lemma verify_call_ledger (c : Call) (v : MCPVerifier) :
  verified_agents (snd (verify_call c v)) =
  if VerificationResult.eligible_for_airdrop (fst (verify_call c v))
  then <[call_address c :=
           committed (now_commit (call_clock c)) (call_address c)
             (req_github_repo (call_request c)) (req_bns_name (call_request c))
             (VerificationResult.trust_level (fst (verify_call c v)))
             (verified_agents v !! call_address c)]> (verified_agents v)
  else verified_agents v.
Proof. unfold verify_call, call_address. apply verify_agent_ledger. Qed.

Lemma verify_call_counts (c : Call) (v : MCPVerifier) (n : string -> Z) :
  ledger_counts v n ->
  ledger_counts (snd (verify_call c v))
    (fun a => n a + (if bool_decide (call_address c = a)
                        && VerificationResult.eligible_for_airdrop
                             (fst (verify_call c v))
                     then 1 else 0)).
Proof.
  intros Hinv a. rewrite verify_call_ledger. specialize (Hinv a).
  destruct (VerificationResult.eligible_for_airdrop (fst (verify_call c v))).
  - destruct (decide (call_address c = a)) as [Heq|Hne].
    + rewrite (bool_decide_eq_true_2 _ Heq). cbn [andb]. subst a.
      rewrite lookup_insert_eq.
      destruct (verified_agents v !! call_address c) as [r|]; cbn; lia.
    + rewrite (bool_decide_eq_false_2 _ Hne). cbn [andb].
      rewrite lookup_insert_ne by assumption.
      destruct (verified_agents v !! a); [split|]; lia.
  - rewrite andb_false_r.
    destruct (verified_agents v !! a); [split|]; lia.
Qed.

Lemma verify_call_times (c : Call) (v : MCPVerifier) :
  clock_ordered c -> ledger_times v -> ledger_times (snd (verify_call c v)).
Proof.
  intros Hclk Hinv a r. rewrite verify_call_ledger.
  destruct (VerificationResult.eligible_for_airdrop (fst (verify_call c v)))
    eqn:Hel; [|apply Hinv].
  destruct (decide (call_address c = a)) as [Heq|Hne].
  2:{ rewrite lookup_insert_ne by assumption. apply Hinv. }
  subst a. rewrite lookup_insert_eq. intros [= <-].
  apply verify_agent_eligible_allowed in Hel.
  rewrite check_rate_limits_verdict in Hel.
  apply andb_true_iff in Hel as [_ Hident]. fold (call_address c) in Hident.
  specialize (Hinv (call_address c)).
  destruct (verified_agents v !! call_address c) as [r|]; cbn; [|lia].
  apply andb_true_iff in Hident as [Hcool _].
  apply negb_true_iff, Z.ltb_ge in Hcool.
  specialize (Hinv r eq_refl). unfold clock_ordered in Hclk.
  unfold timedelta_hours, COOLDOWN_HOURS in Hcool. lia.
Qed.

Lemma successes_cons (a : string) (c : Call) (cs : list Call)
    (r : VerificationResult.t) (rs : list VerificationResult.t) :
  successes a (c :: cs) (r :: rs) =
  (if bool_decide (call_address c = a)
      && VerificationResult.eligible_for_airdrop r then 1 else 0)
  + successes a cs rs.
Proof. reflexivity. Qed.

Lemma successes_nonneg (a : string) (cs : list Call)
    (rs : list VerificationResult.t) :
  0 <= successes a cs rs.
Proof.
  revert rs. induction cs as [|c cs IH]; intros [|r rs]; cbn; try lia.
  specialize (IH rs). destruct (_ && _); lia.
Qed.

Lemma run_calls_counts (cs : list Call) (v : MCPVerifier) (n : string -> Z) :
  ledger_counts v n ->
  ledger_counts (snd (run_calls cs v))
    (fun a => n a + successes a cs (fst (run_calls cs v))).
Proof.
  revert v n. induction cs as [|c cs IH]; intros v n Hinv.
  - intros a. specialize (Hinv a). cbn.
    destruct (verified_agents v !! a); [split|]; lia.
  - rewrite run_calls_cons. cbn [fst snd].
    pose proof (IH _ _ (verify_call_counts c v n Hinv)) as H.
    intros a. specialize (H a). cbn beta in H. rewrite successes_cons.
    destruct (verified_agents _ !! a); [split|]; lia.
Qed.

Lemma run_calls_times (cs : list Call) (v : MCPVerifier) :
  Forall clock_ordered cs -> ledger_times v ->
  ledger_times (snd (run_calls cs v)).
Proof.
  revert v. induction cs as [|c cs IH]; intros v Hclk Hinv; [exact Hinv|].
  rewrite run_calls_cons. cbn [snd].
  apply Forall_cons in Hclk as [Hc Hcs].
  apply IH; [assumption|]. now apply verify_call_times.
Qed.

Lemma init_counts (url : string) (m t0 : Z) :
  ledger_counts (MCPVerifier_init url m t0) (fun _ => 0).
Proof. intros a. cbn. rewrite lookup_empty. reflexivity. Qed.

Lemma init_times (url : string) (m t0 : Z) :
  ledger_times (MCPVerifier_init url m t0).
Proof. intros a r. cbn. rewrite lookup_empty. discriminate. Qed.

(** C6: along every sequence of calls on a new verifier, an address has a
    record exactly when one of its calls was eligible; every record has
    [verification_count >= 1] and [last_activity >= first_seen]; and a call
    changes the ledger exactly when its result is eligible, by creating the
    record with count 1 or by incrementing the count and overwriting
    [last_activity] and [trust_level]. *)
Theorem ledger_invariant (url : string) (m t0 : Z) (cs : list Call) :
  Forall clock_ordered cs ->
  let v0 := MCPVerifier_init url m t0 in
  let rs := fst (run_calls cs v0) in
  let v := snd (run_calls cs v0) in
  (forall a, is_Some (verified_agents v !! a) <-> 1 <= successes a cs rs)
  /\ (forall a r, verified_agents v !! a = Some r ->
        1 <= AgentRecord.verification_count r
        /\ AgentRecord.first_seen r <= AgentRecord.last_activity r)
  /\ (forall (c : Call) (w : MCPVerifier),
        let res := fst (verify_call c w) in
        let a := call_address c in
        let now := now_commit (call_clock c) in
        (VerificationResult.eligible_for_airdrop res = false ->
         verified_agents (snd (verify_call c w)) = verified_agents w)
        /\ (VerificationResult.eligible_for_airdrop res = true ->
            verified_agents (snd (verify_call c w)) ≠ verified_agents w
            /\ verified_agents (snd (verify_call c w)) =
               match verified_agents w !! a with
               | None =>
                   <[a := AgentRecord.mk a (req_github_repo (call_request c))
                            (req_bns_name (call_request c))
                            (VerificationResult.trust_level res) 0 0 1 now
                            now]> (verified_agents w)
               | Some r =>
                   <[a := AgentRecord.mk (AgentRecord.address r)
                            (AgentRecord.github_repo r)
                            (AgentRecord.bns_name r)
                            (VerificationResult.trust_level res)
                            (AgentRecord.total_airdrops_sats r)
                            (AgentRecord.total_airdrops_stx r)
                            (AgentRecord.verification_count r + 1)
                            (AgentRecord.first_seen r) now]>
                     (verified_agents w)
               end)).
Proof.
  intros Hclk. cbv zeta.
  pose proof (run_calls_counts cs _ _ (init_counts url m t0)) as Hcount.
  pose proof (run_calls_times cs _ Hclk (init_times url m t0)) as Htime.
  split; [|split].
  - intros a. specialize (Hcount a). cbn beta in Hcount.
    destruct (verified_agents _ !! a) as [r|].
    + split; [lia|eauto].
    + split; [intros [r Hr]; discriminate|lia].
  - intros a r Hr. specialize (Hcount a). rewrite Hr in Hcount.
    split; [lia|]. now apply (Htime a).
  - intros c w. cbv zeta. rewrite verify_call_ledger.
    split; intros ->; [reflexivity|]. split.
    + intros Heq. apply (f_equal (fun l => l !! call_address c)) in Heq.
      rewrite lookup_insert_eq in Heq.
      destruct (verified_agents w !! call_address c) as [r|];
        [|discriminate].
      injection Heq as Heq. apply (f_equal AgentRecord.verification_count) in Heq.
      cbn in Heq. lia.
    + destruct (verified_agents w !! call_address c); reflexivity.
Qed.

Lemma ledger_invariant_witness :
  let cs := [full_call 25; full_call 26; full_call 50] in
  Forall clock_ordered cs
  /\ VerificationResult.eligible_for_airdrop
       <$> fst (run_calls cs verifier) = [true; false; true]
  /\ verified_agents (snd (run_calls cs verifier)) !! valid_address
     = Some (AgentRecord.mk valid_address (Some "test/mcp-agent") None BASIC
               0 0 2 (timedelta_hours 25) (timedelta_hours 50))
  /\ 1 <= 2 /\ timedelta_hours 25 <= timedelta_hours 50.
Proof.
  cbv zeta.
  assert (Hclk : Forall clock_ordered [full_call 25; full_call 26; full_call 50])
    by (repeat constructor; vm_compute; discriminate).
  split; [exact Hclk|]. split; [vm_compute; reflexivity|].
  assert (Hrec : verified_agents
                   (snd (run_calls [full_call 25; full_call 26; full_call 50]
                           verifier)) !! valid_address
                 = Some (AgentRecord.mk valid_address (Some "test/mcp-agent")
                           None BASIC 0 0 2 (timedelta_hours 25)
                           (timedelta_hours 50)))
    by (vm_compute; reflexivity).
  split; [exact Hrec|].
  destruct (ledger_invariant "https://api.hiro.so" 100000 0
              [full_call 25; full_call 26; full_call 50] Hclk)
    as (_ & Hfields & _).
  exact (Hfields valid_address _ Hrec).
Defined.

(** ** The per-identity cap *)

Lemma verify_call_count_mono (c : Call) (w : MCPVerifier) (a : string)
    (r : AgentRecord.t) :
  verified_agents w !! a = Some r ->
  exists r', verified_agents (snd (verify_call c w)) !! a = Some r'
             /\ AgentRecord.verification_count r
                <= AgentRecord.verification_count r'.
Proof.
  intros Hr. rewrite verify_call_ledger.
  destruct (VerificationResult.eligible_for_airdrop _);
    [|exists r; split; [assumption|lia]].
  destruct (decide (call_address c = a)) as [Heq|Hne].
  - subst a. rewrite lookup_insert_eq, Hr. eexists. split; [reflexivity|].
    cbn. lia.
  - rewrite lookup_insert_ne by assumption. exists r. split; [assumption|lia].
Qed.

Lemma run_calls_count_mono (cs : list Call) (w : MCPVerifier) (a : string)
    (r : AgentRecord.t) :
  verified_agents w !! a = Some r ->
  exists r', verified_agents (snd (run_calls cs w)) !! a = Some r'
             /\ AgentRecord.verification_count r
                <= AgentRecord.verification_count r'.
Proof.
  revert w r. induction cs as [|c cs IH]; intros w r Hr.
  - exists r. split; [assumption|lia].
  - rewrite run_calls_cons. cbn [snd].
    destruct (verify_call_count_mono c w a r Hr) as (r1 & Hr1 & Hle1).
    destruct (IH _ _ Hr1) as (r2 & Hr2 & Hle2).
    exists r2. split; [assumption|lia].
Qed.

(** Once the count has reached the cap, the rate limiter says no, whatever
    the clock reads. *)
Lemma check_rate_limits_exhausted (clk : Clock) (a : string) (v : MCPVerifier)
    (r : AgentRecord.t) :
  verified_agents v !! a = Some r ->
  MAX_AIRDROPS_PER_ADDRESS <= AgentRecord.verification_count r ->
  fst (_check_rate_limits clk a v) = false.
Proof.
  intros Hr Hcap. rewrite check_rate_limits_verdict, Hr.
  apply Z.leb_le in Hcap. rewrite Hcap. cbn [negb].
  now rewrite !andb_false_r.
Qed.

(** C4: on a new verifier, once an address has had [MAX_AIRDROPS_PER_ADDRESS]
    successful verifications, every later request for it, after any further
    traffic and at any time, is refused by the rate limiter: the result is
    not successful, carries amounts 0 and 0, and, when the address is
    well-formed and the balance sufficient, gives the rate limit as its
    reason.  The refusal is permanent because no call lowers a record's
    [verification_count] or removes the record. *)
Theorem per_identity_cap_is_permanent (url : string) (m t0 : Z)
    (cs more : list Call) (c : Call) :
  let v0 := MCPVerifier_init url m t0 in
  MAX_AIRDROPS_PER_ADDRESS
  <= successes (call_address c) cs (fst (run_calls cs v0)) ->
  let v := snd (run_calls (cs ++ more) v0) in
  let res := fst (verify_call c v) in
  fst (_check_rate_limits (call_clock c) (call_address c) v) = false
  /\ VerificationResult.success res = false
  /\ VerificationResult.eligible_for_airdrop res = false
  /\ VerificationResult.airdrop_amount_sats res = 0
  /\ VerificationResult.airdrop_amount_stx res = 0
  /\ (_is_valid_stacks_address (call_address c) = true ->
      min_stx_balance v <= stx_balance (call_oracles c) ->
      VerificationResult.reason res = Rate_limit_exceeded)
  /\ (forall (c' : Call) (w : MCPVerifier) (a : string) (r : AgentRecord.t),
        verified_agents w !! a = Some r ->
        exists r', verified_agents (snd (verify_call c' w)) !! a = Some r'
                   /\ AgentRecord.verification_count r
                      <= AgentRecord.verification_count r').
Proof.
  cbv zeta. intros Hcap.
  pose proof (run_calls_counts cs _ _ (init_counts url m t0) (call_address c))
    as Hcount. cbn beta in Hcount.
  destruct (verified_agents (snd (run_calls cs _)) !! call_address c)
    as [r|] eqn:Hr; [|unfold MAX_AIRDROPS_PER_ADDRESS in Hcap; lia].
  destruct (run_calls_count_mono more _ _ _ Hr) as (r' & Hr' & Hle).
  rewrite <- run_calls_app in Hr'.
  set (v := snd (run_calls (cs ++ more) (MCPVerifier_init url m t0))) in *.
  assert (Hdenied : fst (_check_rate_limits (call_clock c) (call_address c) v)
                    = false).
  { apply (check_rate_limits_exhausted _ _ _ r' Hr'). lia. }
  split; [exact Hdenied|].
  assert (Hres : VerificationResult.eligible_for_airdrop
                   (fst (verify_call c v)) = false).
  { destruct (VerificationResult.eligible_for_airdrop _) eqn:Hel;
      [|reflexivity].
    apply verify_agent_eligible_allowed in Hel.
    unfold call_address in Hdenied. congruence. }
  unfold verify_call in *. rewrite verify_agent_success, Hres.
  split; [reflexivity|]. split; [reflexivity|].
  revert Hres. rewrite verify_agent_eq.
  fold (call_address c). rewrite settle_eq. cbv zeta.
  change (req_address (request_of _ _ _ _)) with (call_address c).
  rewrite Hdenied.
  destruct (_is_valid_stacks_address (call_address c)).
  - destruct (Z.leb_spec (min_stx_balance v) (stx_balance (call_oracles c))).
    + intros _. repeat split.
      intros c' w a r0. apply verify_call_count_mono.
    + intros _. repeat split; try lia.
      intros c' w a r0. apply verify_call_count_mono.
  - intros _. repeat split; try discriminate.
    intros c' w a r0. apply verify_call_count_mono.
Qed.

Lemma per_identity_cap_is_permanent_witness :
  let cs := [full_call 25; full_call 50; full_call 75; full_call 100;
             full_call 125] in
  VerificationResult.eligible_for_airdrop <$> fst (run_calls cs verifier)
  = [true; true; true; true; true]
  /\ fst (verify_call (full_call 150) (snd (run_calls cs verifier)))
     = VerificationResult.mk false
         ["valid_address"; "min_balance"; "github_mcp"; "mcp_endpoint"] []
         UNKNOWN false 0 0 Rate_limit_exceeded
  /\ VerificationResult.success
       (fst (verify_call (full_call 150)
               (snd (run_calls (cs ++ [full_call 150]) verifier))))
     = false.
Proof.
  cbv zeta. split; [vm_compute; reflexivity|].
  split; [vm_compute; reflexivity|].
  refine (proj1 (proj2 (per_identity_cap_is_permanent "https://api.hiro.so"
                          100000 0
                          [full_call 25; full_call 50; full_call 75;
                           full_call 100; full_call 125]
                          [full_call 150] (full_call 150) _))).
  vm_compute. discriminate.
Defined.

(** ** Concurrent requests for one identity *)

(** Run to completion without interference, the coroutine is
    [verify_agent]: five turns are enough from creation. *)
Lemma resume_times_verify_agent (o : Oracles) (clk : Clock) (a : string)
    (g e b : option string) (v : MCPVerifier) :
  resume_times 5 o clk (request_of a g e b) Created v
  = (Finished (fst (verify_agent o clk a g e b v)),
     snd (verify_agent o clk a g e b v)).
Proof.
  rewrite verify_agent_eq.
  unfold resume_times, passed_after_checks, failed_after_checks.
  destruct (_is_valid_stacks_address a) eqn:Hvalid.
  2:{ unfold resume, bind, ret. cbn [req_address request_of].
      rewrite Hvalid. reflexivity. }
  destruct (min_stx_balance v <=? stx_balance o) eqn:Hmin.
  2:{ unfold resume, bind, ret, self, _check_stx_balance.
      cbn [req_address request_of]. rewrite Hvalid, Hmin. reflexivity. }
  destruct (truthy g) eqn:Hg, (github_mcp o) eqn:Hgo, (truthy e) eqn:He,
    (_verify_mcp_endpoint_of (mcp_probe o)) eqn:Heo, (truthy b) eqn:Hb,
    (bns_owned o) eqn:Hbo;
    repeat (unfold resume, enter_check3, enter_check4, enter_check5, bind,
              ret, self, _check_stx_balance, _verify_github_mcp,
              _verify_mcp_endpoint, _verify_bns_ownership;
            cbn [req_address req_github_repo req_mcp_endpoint req_bns_name
                   request_of andb negb app];
            rewrite ?Hvalid, ?Hmin, ?Hg, ?Hgo, ?He, ?Heo, ?Hb, ?Hbo);
    match goal with
    | |- context [settle ?c ?r ?p ?f ?w] =>
        destruct (settle c r p f w); reflexivity
    end.
Qed.

Lemma settle_success (clk : Clock) (rq : Request) (cp cf : list string)
    (v : MCPVerifier) :
  VerificationResult.success (fst (settle clk rq cp cf v)) = true ->
  fst (_check_rate_limits clk (req_address rq) v) = true
  /\ exists l,
       verified_agents (snd (settle clk rq cp cf v)) =
       <[req_address rq :=
           committed (now_commit clk) (req_address rq) (req_github_repo rq)
             (req_bns_name rq) l (verified_agents v !! req_address rq)]>
         (verified_agents v).
Proof.
  rewrite settle_eq. cbv zeta.
  destruct (fst (_check_rate_limits clk (req_address rq) v)); [|discriminate].
  destruct (enough cp); [|discriminate]. intros _. split; [reflexivity|].
  eexists. cbn [snd]. rewrite record_verification_state. cbn.
  rewrite after_window_agents. reflexivity.
Qed.

Lemma settle_failure (clk : Clock) (rq : Request) (cp cf : list string)
    (v : MCPVerifier) :
  VerificationResult.success (fst (settle clk rq cp cf v)) = false ->
  verified_agents (snd (settle clk rq cp cf v)) = verified_agents v.
Proof.
  rewrite settle_eq. cbv zeta.
  destruct (fst (_check_rate_limits clk (req_address rq) v));
    [|intros _; apply after_window_agents].
  destruct (enough cp); [discriminate|]. intros _. apply after_window_agents.
Qed.

Lemma committed_last_activity (now : Z) (a : string) (g b : option string)
    (l : TrustLevel) (existing : option AgentRecord.t) :
  AgentRecord.last_activity (committed now a g b l existing) = now.
Proof. destruct existing; reflexivity. Qed.

(** A turn either leaves the verifier alone and decides nothing, or runs
    [settle] on a coroutine that had not finished. *)
Lemma resume_outcome (o : Oracles) (clk : Clock) (rq : Request) (fr : Frame)
    (v : MCPVerifier) (a : string) :
  (snd (resume o clk rq fr v) = v
   /\ won a {| task_request := rq; task_frame := fst (resume o clk rq fr v) |}
      = won a {| task_request := rq; task_frame := fr |})
  \/ (won a {| task_request := rq; task_frame := fr |} = false
      /\ exists cp cf,
           resume o clk rq fr v
           = (Finished (fst (settle clk rq cp cf v)),
              snd (settle clk rq cp cf v))).
Proof.
  assert (Hsettle : forall cp cf,
             (r <~ settle clk rq cp cf ;; ret (Finished r)) v
             = (Finished (fst (settle clk rq cp cf v)),
                snd (settle clk rq cp cf v))).
  { intros cp cf. unfold bind, ret.
    destruct (settle clk rq cp cf v); reflexivity. }
  assert (H5 : forall cp cf,
             (snd (enter_check5 clk rq cp cf v) = v
              /\ won a {| task_request := rq;
                          task_frame := fst (enter_check5 clk rq cp cf v) |}
                 = false)
             \/ enter_check5 clk rq cp cf v
                = (Finished (fst (settle clk rq cp cf v)),
                   snd (settle clk rq cp cf v))).
  { intros cp cf. unfold enter_check5.
    destruct (truthy (req_bns_name rq)); [left; split; reflexivity|].
    right. apply Hsettle. }
  assert (H4 : forall cp cf,
             (snd (enter_check4 clk rq cp cf v) = v
              /\ won a {| task_request := rq;
                          task_frame := fst (enter_check4 clk rq cp cf v) |}
                 = false)
             \/ enter_check4 clk rq cp cf v
                = (Finished (fst (settle clk rq cp cf v)),
                   snd (settle clk rq cp cf v))).
  { intros cp cf. unfold enter_check4.
    destruct (truthy (req_mcp_endpoint rq)); [left; split; reflexivity|].
    apply H5. }
  assert (H3 : forall cp cf,
             (snd (enter_check3 clk rq cp cf v) = v
              /\ won a {| task_request := rq;
                          task_frame := fst (enter_check3 clk rq cp cf v) |}
                 = false)
             \/ enter_check3 clk rq cp cf v
                = (Finished (fst (settle clk rq cp cf v)),
                   snd (settle clk rq cp cf v))).
  { intros cp cf. unfold enter_check3.
    destruct (truthy (req_github_repo rq)); [left; split; reflexivity|].
    apply H4. }
  destruct fr as [|cp cf|cp cf|cp cf|cp cf|r]; cbn [resume].
  - left. destruct (_is_valid_stacks_address (req_address rq));
      (split; [reflexivity|]); [reflexivity|apply andb_false_r].
  - unfold bind, self. cbv beta iota.
    destruct (min_stx_balance v <=? _check_stx_balance o (req_address rq));
      [|left; split; [reflexivity|apply andb_false_r]].
    destruct (H3 (cp ++ ["min_balance"]) cf) as [[Hs Hw]|Heq];
      [left; split; assumption|right; split; [reflexivity|eauto]].
  - destruct (_verify_github_mcp o (req_github_repo rq)).
    + destruct (H4 (cp ++ ["github_mcp"]) cf) as [[Hs Hw]|Heq];
        [left; split; assumption|right; split; [reflexivity|eauto]].
    + destruct (H4 cp (cf ++ ["github_mcp_missing"])) as [[Hs Hw]|Heq];
        [left; split; assumption|right; split; [reflexivity|eauto]].
  - destruct (_verify_mcp_endpoint o (req_mcp_endpoint rq)).
    + destruct (H5 (cp ++ ["mcp_endpoint"]) cf) as [[Hs Hw]|Heq];
        [left; split; assumption|right; split; [reflexivity|eauto]].
    + destruct (H5 cp (cf ++ ["mcp_endpoint_down"])) as [[Hs Hw]|Heq];
        [left; split; assumption|right; split; [reflexivity|eauto]].
  - right. split; [reflexivity|]. rewrite Hsettle. eauto.
  - left. split; reflexivity.
Qed.

Lemma wins_insert (a : string) (pool : list Task) (i : nat) (tk tk' : Task) :
  pool !! i = Some tk ->
  (wins a (<[i := tk']> pool) + (if won a tk then 1 else 0)
   = wins a pool + (if won a tk' then 1 else 0))%nat.
Proof.
  revert i. induction pool as [|hd pool IH]; intros i Hi; [discriminate|].
  destruct i as [|i].
  - injection Hi as ->. change (<[0%nat := tk']> (tk :: pool)) with (tk' :: pool).
    cbn [wins]. lia.
  - specialize (IH i Hi).
    change (<[S i := tk']> (hd :: pool)) with (hd :: <[i := tk']> pool).
    cbn [wins]. lia.
Qed.

Lemma run_turn_award_inv (t0 : Z) (a : string) (t : Turn) (pool : list Task)
    (v : MCPVerifier) :
  within_cooldown t0 t ->
  award_inv t0 a pool v ->
  award_inv t0 a (fst (run_turn t pool v)) (snd (run_turn t pool v)).
Proof.
  intros [Hlo Hhi] Hinv. unfold run_turn.
  destruct (pool !! turn_task t) as [[rq fr]|] eqn:Hi; [|exact Hinv].
  cbn [task_request task_frame]. unfold bind, ret.
  destruct (resume (turn_oracles t) (turn_clock t) rq fr v) as [fr' v']
    eqn:Hres. cbn [fst snd].
  pose proof (wins_insert a pool (turn_task t) _
                {| task_request := rq; task_frame := fr' |} Hi) as Hwins.
  destruct (resume_outcome (turn_oracles t) (turn_clock t) rq fr v a)
    as [[Hs Hw]|[Hw (cp & cf & Heq)]]; rewrite Hres in *; cbn [fst snd] in *.
  - subst v'. rewrite Hw in Hwins.
    assert (Hsame : wins a (<[turn_task t :=
                               {| task_request := rq; task_frame := fr' |}]>
                              pool) = wins a pool) by lia.
    unfold award_inv. rewrite Hsame. exact Hinv.
  - injection Heq as -> ->. rewrite Hw in Hwins.
    destruct (VerificationResult.success
                (fst (settle (turn_clock t) rq cp cf v))) eqn:Hsucc.
    + destruct (settle_success _ _ _ _ _ Hsucc) as [Hallowed [l Hledger]].
      destruct (decide (req_address rq = a)) as [Heq|Hne].
      * subst a.
        assert (Hwon : won (req_address rq)
                         {| task_request := rq;
                            task_frame :=
                              Finished (fst (settle (turn_clock t) rq cp cf v))
                         |} = true).
        { cbn. rewrite Hsucc. rewrite bool_decide_eq_true_2; reflexivity. }
        rewrite Hwon in Hwins.
        destruct Hinv as [Hzero|[_ (r & Hr & Hlast)]].
        -- right. split; [lia|]. rewrite Hledger, lookup_insert_eq.
           eexists. split; [reflexivity|].
           rewrite committed_last_activity. exact Hlo.
        -- exfalso. rewrite check_rate_limits_verdict, Hr in Hallowed.
           apply andb_true_iff in Hallowed as [_ Hident].
           apply andb_true_iff in Hident as [Hcool _].
           apply negb_true_iff, Z.ltb_ge in Hcool. lia.
      * assert (Hwon : won a {| task_request := rq;
                                task_frame :=
                                  Finished
                                    (fst (settle (turn_clock t) rq cp cf v))
                             |} = false).
        { cbn. rewrite bool_decide_eq_false_2; [reflexivity|assumption]. }
        rewrite Hwon in Hwins. unfold award_inv.
        rewrite Hledger, lookup_insert_ne by assumption.
        destruct Hinv as [Hzero|[Hone Hrec]]; [left|right; split]; try lia.
        exact Hrec.
    + assert (Hwon : won a {| task_request := rq;
                              task_frame :=
                                Finished
                                  (fst (settle (turn_clock t) rq cp cf v))
                           |} = false).
      { cbn. rewrite Hsucc. apply andb_false_r. }
      rewrite Hwon in Hwins. unfold award_inv.
      rewrite (settle_failure _ _ _ _ _ Hsucc).
      destruct Hinv as [Hzero|[Hone Hrec]]; [left|right; split]; try lia.
      exact Hrec.
Qed.

Lemma run_schedule_award_inv (t0 : Z) (a : string) (sched : list Turn)
    (pool : list Task) (v : MCPVerifier) :
  Forall (within_cooldown t0) sched ->
  award_inv t0 a pool v ->
  award_inv t0 a (fst (run_schedule sched pool v))
    (snd (run_schedule sched pool v)).
Proof.
  revert pool v. induction sched as [|t sched IH]; intros pool v Hall Hinv;
    [exact Hinv|].
  apply Forall_cons in Hall as [Ht Hall].
  cbn [run_schedule]. unfold bind.
  pose proof (run_turn_award_inv t0 a t pool v Ht Hinv) as Hstep.
  destruct (run_turn t pool v) as [pool' v']. cbn [fst snd] in Hstep.
  now apply IH.
Qed.

Lemma wins_created (a : string) (pool : list Task) :
  Forall (fun tk => task_frame tk = Created) pool -> wins a pool = 0%nat.
Proof.
  induction 1 as [|tk pool Hc _ IH]; [reflexivity|].
  cbn [wins]. unfold won. rewrite Hc, IH. reflexivity.
Qed.

(** C7: take any number of fresh requests, any identities among them, and
    let the event loop interleave them in any order, suspending each at its
    [await]s, with all clock readings inside one cooldown period.  Then at
    most one of the requests for a given identity succeeds: the part of
    [verify_agent] that reads the record, tests the limits and commits runs
    without suspension, so a second request finds the record the first one
    wrote. *)
Theorem at_most_one_concurrent_success (t0 : Z) (a : string)
    (sched : list Turn) (pool : list Task) (v : MCPVerifier) :
  Forall (fun tk => task_frame tk = Created) pool ->
  Forall (within_cooldown t0) sched ->
  (wins a (fst (run_schedule sched pool v)) <= 1)%nat.
Proof.
  intros Hnew Hburst.
  destruct (run_schedule_award_inv t0 a sched pool v Hburst) as [H|[H _]];
    [left; now apply wins_created|lia|lia].
Qed.

Lemma at_most_one_concurrent_success_witness :
  task_frame <$> fst (run_schedule alternating two_requests verifier)
  = [ Finished (VerificationResult.mk true
                  ["valid_address"; "min_balance"; "github_mcp";
                   "mcp_endpoint"] [] BASIC true 1000 100000
                  Verification_passed);
      Finished (VerificationResult.mk false
                  ["valid_address"; "min_balance"; "github_mcp";
                   "mcp_endpoint"] [] UNKNOWN false 0 0
                  Rate_limit_exceeded) ]
  /\ (wins valid_address
        (fst (run_schedule alternating two_requests verifier)) <= 1)%nat.
Proof.
  split; [vm_compute; reflexivity|].
  apply (at_most_one_concurrent_success (timedelta_hours 1)).
  - repeat constructor.
  - repeat constructor; vm_compute; congruence.
Defined.

(** ** The repository's unit tests, replayed on the embedding *)

Example test_address_validation :
  _is_valid_stacks_address valid_address = true
  /\ _is_valid_stacks_address "ST1PQHQKV0RJXZFY1DGX8MNSNYVE3VGZJSRTPGZGM" = true
  /\ _is_valid_stacks_address "SP123" = false
  /\ _is_valid_stacks_address "0x1234567890abcdef1234567890abcdef" = false
  /\ _is_valid_stacks_address "" = false.
Proof. repeat split. Qed.

Example test_trust_level_calculation :
  fst (_calculate_trust_level [] valid_address verifier) = UNKNOWN
  /\ fst (_calculate_trust_level ["a"; "b"] valid_address verifier) = PENDING
  /\ fst (_calculate_trust_level ["a"; "b"; "c"; "d"] valid_address verifier)
     = BASIC
  /\ fst (_calculate_trust_level ["a"; "b"] valid_address
            (verifier_with_record 2 0)) = TRUSTED
  /\ fst (_calculate_trust_level ["a"] valid_address
            (verifier_with_record 5 0)) = ESTABLISHED.
Proof. repeat split; vm_compute; reflexivity. Qed.

Example test_rate_limiting :
  fst (_check_rate_limits (at_hour 1) valid_address verifier) = true
  /\ fst (_check_rate_limits (at_hour 1) valid_address
            (set_daily_airdrop_count MAX_AIRDROPS_PER_DAY verifier)) = false
  /\ _check_rate_limits (at_hour 25) valid_address
       (set_daily_airdrop_count MAX_AIRDROPS_PER_DAY verifier)
     = (true, set_last_reset (timedelta_hours 25) verifier)
  /\ fst (_check_rate_limits (at_hour 1) valid_address
            (verifier_with_record 1 (timedelta_hours 1))) = false
  /\ fst (_check_rate_limits (at_hour (COOLDOWN_HOURS + 1)) valid_address
            (verifier_with_record 1 0)) = true
  /\ fst (_check_rate_limits (at_hour (COOLDOWN_HOURS + 1)) valid_address
            (verifier_with_record MAX_AIRDROPS_PER_ADDRESS 0)) = false.
Proof. repeat split; vm_compute; reflexivity. Qed.

Example test_min_balance_required :
  let res := fst (verify_agent
                    {| stx_balance := 0; github_mcp := false;
                       mcp_probe := Raised; bns_owned := false |}
                    (at_hour 1) valid_address None None None verifier) in
  VerificationResult.success res = false
  /\ VerificationResult.eligible_for_airdrop res = false
  /\ VerificationResult.airdrop_amount_sats res = 0
  /\ VerificationResult.checks_failed res = ["insufficient_balance"].
Proof. repeat split. Qed.

Example test_successful_verification_flow :
  let run := verify_agent
               {| stx_balance := 500000; github_mcp := true;
                  mcp_probe := Responded 200; bns_owned := false |}
               (at_hour 1) valid_address (Some "test/mcp-agent")
               (Some "https://mcp.test.com") None verifier in
  VerificationResult.success (fst run) = true
  /\ VerificationResult.eligible_for_airdrop (fst run) = true
  /\ 0 < VerificationResult.airdrop_amount_sats (fst run)
  /\ is_Some (verified_agents (snd run) !! valid_address).
Proof.
  cbv zeta. split; [reflexivity|]. split; [reflexivity|].
  split; [reflexivity|]. vm_compute. eauto.
Qed.

(** The second attempt of the design's scenario, one hour after the first:
    denied by the cooldown, the level computed for it is BASIC and the
    level reported is UNKNOWN. *)
Example second_attempt_levels :
  fst (_check_rate_limits (at_hour 2) valid_address verifier_after_first)
  = false
  /\ fst (_calculate_trust_level
            ["valid_address"; "min_balance"; "github_mcp"; "mcp_endpoint"]
            valid_address verifier_after_first) = BASIC
  /\ VerificationResult.trust_level
       (fst (verify_agent all_pass (at_hour 2) valid_address
               (Some "test/mcp-agent") (Some "https://mcp.test.com") None
               verifier_after_first)) = UNKNOWN.
Proof. repeat split; vm_compute; reflexivity. Qed.

(** ** Which levels a request can be granted *)

Lemma level_of_checks_cases (cp : list string) :
  (length cp < 2 /\ level_of_checks cp = UNKNOWN)%nat
  \/ (2 <= length cp < 4 /\ level_of_checks cp = PENDING)%nat
  \/ (4 <= length cp /\ level_of_checks cp = BASIC)%nat.
Proof.
  unfold level_of_checks.
  destruct (Nat.leb_spec 4 (length cp)); [right; right; split; [lia|easy]|].
  destruct (Nat.leb_spec 2 (length cp)); [right; left|left]; split;
    try lia; reflexivity.
Qed.

(** The level computed for a request that the rate limiter allows. *)
Lemma allowed_level (clk : Clock) (cp : list string) (a : string)
    (v : MCPVerifier) :
  fst (_check_rate_limits clk a v) = true ->
  fst (_calculate_trust_level cp a v) =
  match verified_agents v !! a with
  | Some r =>
      if 2 <=? AgentRecord.verification_count r then TRUSTED
      else level_of_checks cp
  | None => level_of_checks cp
  end
  /\ match verified_agents v !! a with
     | Some r => AgentRecord.verification_count r < MAX_AIRDROPS_PER_ADDRESS
     | None => True
     end.
Proof.
  rewrite check_rate_limits_verdict. intros Hallowed.
  apply andb_true_iff in Hallowed as [_ Hident].
  unfold _calculate_trust_level. run_monad.
  destruct (verified_agents v !! a) as [r|]; [|split; reflexivity].
  apply andb_true_iff in Hident as [_ Hcap].
  apply negb_true_iff, Z.leb_gt in Hcap.
  unfold MAX_AIRDROPS_PER_ADDRESS in *.
  destruct (Z.leb_spec 5 (AgentRecord.verification_count r)); [lia|].
  split; [|assumption].
  destruct (2 <=? AgentRecord.verification_count r); reflexivity.
Qed.

(** X1: no result of [verify_agent], eligible or not, carries the level
    ESTABLISHED: the level needs a count of 5, at which the rate limiter
    refuses.  So no request is ever granted more than the TRUSTED amounts,
    5000 sats and 500000 microSTX. *)
Theorem established_is_never_granted (o : Oracles) (clk : Clock) (a : string)
    (g e b : option string) (v : MCPVerifier) :
  let res := fst (verify_agent o clk a g e b v) in
  VerificationResult.trust_level res <> ESTABLISHED
  /\ 0 <= VerificationResult.airdrop_amount_sats res <= 5000
  /\ 0 <= VerificationResult.airdrop_amount_stx res <= 500000.
Proof.
  cbv zeta. rewrite verify_agent_eq.
  destruct (_is_valid_stacks_address a); [|cbn; split; [discriminate|lia]].
  destruct (min_stx_balance v <=? stx_balance o);
    [|cbn; split; [discriminate|lia]].
  rewrite settle_eq. cbv zeta.
  change (req_address (request_of a g e b)) with a.
  destruct (fst (_check_rate_limits clk a v)) eqn:Hallowed;
    [|cbn; split; [discriminate|lia]].
  destruct (allowed_level clk (passed_after_checks o g e b) a v Hallowed)
    as [Hlvl _].
  assert (Hcases : fst (_calculate_trust_level (passed_after_checks o g e b)
                          a v) ∈ [UNKNOWN; PENDING; BASIC; TRUSTED]).
  { rewrite Hlvl. rewrite !elem_of_cons.
    destruct (level_of_checks_cases (passed_after_checks o g e b))
      as [[_ Hl]|[[_ Hl]|[_ Hl]]];
      destruct (verified_agents v !! a) as [r|];
      try destruct (2 <=? AgentRecord.verification_count r);
      rewrite ?Hl; tauto. }
  rewrite !elem_of_cons, elem_of_nil in Hcases.
  destruct (enough _); cbn [fst VerificationResult.trust_level
    VerificationResult.airdrop_amount_sats
    VerificationResult.airdrop_amount_stx];
    destruct Hcases as [->|[->|[->|[->|[]]]]]; cbn;
    (split; [discriminate|lia]).
Qed.

(** ** Awards that pay nothing *)

(** X2: a request with exactly three passed checks, for an identity with fewer
    than two earlier verifications, is eligible at level PENDING when the
    rate limiter allows it: it is granted 0 sats and 0 microSTX, and yet it
    is committed like any other award, using up one verification of the
    identity and one slot of the day and starting the cooldown. *)
Theorem pending_award_pays_nothing_but_commits (o : Oracles) (clk : Clock)
    (a : string) (g e b : option string) (v : MCPVerifier) :
  _is_valid_stacks_address a = true ->
  min_stx_balance v <= stx_balance o ->
  fst (_check_rate_limits clk a v) = true ->
  match verified_agents v !! a with
  | Some r => AgentRecord.verification_count r < 2
  | None => True
  end ->
  let res := fst (verify_agent o clk a g e b v) in
  let v' := snd (verify_agent o clk a g e b v) in
  length (VerificationResult.checks_passed res) = 3%nat ->
  VerificationResult.eligible_for_airdrop res = true
  /\ VerificationResult.trust_level res = PENDING
  /\ VerificationResult.airdrop_amount_sats res = 0
  /\ VerificationResult.airdrop_amount_stx res = 0
  /\ daily_airdrop_count v'
     = daily_airdrop_count (snd (_check_rate_limits clk a v)) + 1
  /\ exists r',
       verified_agents v' !! a = Some r'
       /\ AgentRecord.verification_count r'
          = match verified_agents v !! a with
            | Some r => AgentRecord.verification_count r + 1
            | None => 1
            end
       /\ AgentRecord.last_activity r' = now_commit clk
       /\ AgentRecord.trust_level r' = PENDING.
Proof.
  intros Hvalid Hmin Hallowed Hcount. apply Z.leb_le in Hmin. cbv zeta.
  rewrite verify_agent_eq, Hvalid, Hmin, settle_eq. cbv zeta.
  change (req_address (request_of a g e b)) with a. rewrite Hallowed.
  set (cp := passed_after_checks o g e b).
  pose proof (enough_passed_after_checks o g e b) as Hen. fold cp in Hen.
  destruct (allowed_level clk cp a v Hallowed) as [Hlvl _].
  destruct (enough cp) eqn:Henough; cbn [fst snd
    VerificationResult.checks_passed VerificationResult.eligible_for_airdrop
    VerificationResult.trust_level VerificationResult.airdrop_amount_sats
    VerificationResult.airdrop_amount_stx]; intros Hlen.
  2:{ rewrite Hlen in Hen. discriminate. }
  assert (Hpending : fst (_calculate_trust_level cp a v) = PENDING).
  { rewrite Hlvl. unfold level_of_checks. rewrite Hlen.
    destruct (verified_agents v !! a) as [r|]; [|reflexivity].
    destruct (Z.leb_spec 2 (AgentRecord.verification_count r)); [lia|].
    reflexivity. }
  rewrite Hpending, record_verification_state, check_rate_limits_state.
  cbn. rewrite after_window_agents, lookup_insert_eq.
  repeat split. eexists. split; [reflexivity|].
  destruct (verified_agents v !! a); repeat split.
Qed.

Lemma pending_award_pays_nothing_but_commits_witness :
  let run := verify_agent all_pass (at_hour 1) valid_address
               (Some "test/mcp-agent") None None verifier in
  fst run = VerificationResult.mk true
              ["valid_address"; "min_balance"; "github_mcp"] [] PENDING true
              0 0 Verification_passed
  /\ daily_airdrop_count (snd run) = 1
  /\ exists r', verified_agents (snd run) !! valid_address = Some r'
                /\ AgentRecord.verification_count r' = 1.
Proof.
  cbv zeta. split; [vm_compute; reflexivity|].
  destruct (pending_award_pays_nothing_but_commits all_pass (at_hour 1)
              valid_address (Some "test/mcp-agent") None None verifier
              eq_refl (Z.le_refl _) eq_refl I eq_refl)
    as (_ & _ & _ & _ & Hdaily & r' & Hr' & Hn & _).
  split; [exact Hdaily|]. exists r'. split; [exact Hr'|exact Hn].
Defined.

(** ** What a request that is not eligible can change *)



(** ** The two lists of a result *)

(** X4: past the format and stake checks, the two lists of a result account for
    the evidence exactly: [checks_passed] starts with "valid_address" and
    "min_balance"; a supplied repository or endpoint puts its name in one
    of the lists, according to the lookup, and an absent one in neither; a
    supplied name appears only when confirmed.  No name occurs twice. *)
Theorem check_lists_account_for_evidence (o : Oracles) (clk : Clock)
    (a : string) (g e b : option string) (v : MCPVerifier) :
  _is_valid_stacks_address a = true ->
  min_stx_balance v <= stx_balance o ->
  let res := fst (verify_agent o clk a g e b v) in
  let cp := VerificationResult.checks_passed res in
  let cf := VerificationResult.checks_failed res in
  NoDup (cp ++ cf)
  /\ (exists rest, cp = "valid_address" :: "min_balance" :: rest)
  /\ bool_decide ("github_mcp" ∈ cp)
     = truthy g && _verify_github_mcp o g
  /\ bool_decide ("github_mcp_missing" ∈ cf)
     = truthy g && negb (_verify_github_mcp o g)
  /\ bool_decide ("mcp_endpoint" ∈ cp)
     = truthy e && _verify_mcp_endpoint o e
  /\ bool_decide ("mcp_endpoint_down" ∈ cf)
     = truthy e && negb (_verify_mcp_endpoint o e)
  /\ bool_decide ("bns_verified" ∈ cp)
     = truthy b && _verify_bns_ownership o a b
  /\ (length cp + length cf
      = 2 + (if truthy g then 1 else 0) + (if truthy e then 1 else 0)
        + (if truthy b && _verify_bns_ownership o a b then 1 else 0))%nat.
Proof.
  intros Hvalid Hmin. apply Z.leb_le in Hmin. cbv zeta.
  rewrite verify_agent_eq, Hvalid, Hmin.
  rewrite settle_checks_passed, settle_checks_failed.
  unfold passed_after_checks, failed_after_checks, _verify_github_mcp,
    _verify_mcp_endpoint, _verify_bns_ownership.
  destruct (truthy g), (github_mcp o), (truthy e),
    (_verify_mcp_endpoint_of (mcp_probe o)), (truthy b), (bns_owned o);
    cbn [andb negb app];
    (split; [apply (bool_decide_unpack (NoDup _)); vm_compute; exact I|]);
    (split; [eexists; reflexivity|]);
    repeat split; vm_compute; reflexivity.
Qed.

Lemma check_lists_account_for_evidence_witness :
  let res := fst (verify_agent
                    {| stx_balance := 100000; github_mcp := false;
                       mcp_probe := Responded 200; bns_owned := false |}
                    (at_hour 1) valid_address (Some "test/mcp-agent")
                    (Some "https://mcp.test.com") (Some "agent.btc")
                    verifier) in
  VerificationResult.checks_passed res
  = ["valid_address"; "min_balance"; "mcp_endpoint"]
  /\ VerificationResult.checks_failed res = ["github_mcp_missing"]
  /\ NoDup (VerificationResult.checks_passed res
            ++ VerificationResult.checks_failed res).
Proof.
  cbv zeta. split; [vm_compute; reflexivity|].
  split; [vm_compute; reflexivity|].
  exact (proj1 (check_lists_account_for_evidence
                  {| stx_balance := 100000; github_mcp := false;
                     mcp_probe := Responded 200; bns_owned := false |}
                  (at_hour 1) valid_address (Some "test/mcp-agent")
                  (Some "https://mcp.test.com") (Some "agent.btc") verifier
                  eq_refl (Z.le_refl _))).
Defined.

(** ** Strings *)

Lemma string_app_cons (c : Ascii.ascii) (s t : string) :
  String c s +:+ t = String c (s +:+ t).
Proof. reflexivity. Qed.

Lemma string_app_nil_l (t : string) : "" +:+ t = t.
Proof. reflexivity. Qed.

Lemma string_app_assoc (s t u : string) : (s +:+ t) +:+ u = s +:+ t +:+ u.
Proof.
  induction s as [|c s IH]; [reflexivity|].
  rewrite !string_app_cons. now f_equal.
Qed.

Lemma string_length_app (s t : string) :
  String.length (s +:+ t) = (String.length s + String.length t)%nat.
Proof.
  induction s as [|c s IH]; [reflexivity|].
  rewrite string_app_cons. cbn [String.length]. now rewrite IH.
Qed.

Lemma string_prefix_iff (p s : string) :
  String.prefix p s = true <-> exists t, s = p +:+ t.
Proof.
  revert s. induction p as [|c p IH]; intros [|d s]; cbn [String.prefix].
  - split; [intros _; now exists ""|reflexivity].
  - split; [intros _; now exists (String d s)|reflexivity].
  - split; [discriminate|]. intros [t Ht]. rewrite string_app_cons in Ht.
    discriminate.
  - destruct (Ascii.ascii_dec c d) as [->|Hne].
    + rewrite IH. split; intros [t Ht]; exists t.
      * rewrite string_app_cons. now rewrite Ht.
      * rewrite string_app_cons in Ht. now injection Ht.
    + split; [discriminate|]. intros [t Ht]. rewrite string_app_cons in Ht.
      injection Ht as Hc _. congruence.
Qed.

Lemma contains_iff (needle hay : string) :
  contains needle hay = true
  <-> exists before after, hay = before +:+ needle +:+ after.
Proof.
  induction hay as [|c hay IH]; cbn [contains];
    rewrite orb_true_iff, string_prefix_iff.
  - split.
    + intros [[t Ht]|Hf]; [|discriminate]. now exists "", t.
    + intros (before & after & Heq). left.
      destruct before; [now exists after|].
      rewrite string_app_cons in Heq. discriminate.
  - rewrite IH. split.
    + intros [[t Ht]|(before & after & Heq)]; [now exists "", t|].
      exists (String c before), after. rewrite string_app_cons.
      now rewrite Heq.
    + intros (before & after & Heq). destruct before as [|d before].
      * left. now exists after.
      * right. rewrite string_app_cons in Heq. injection Heq as _ Heq.
        now exists before, after.
Qed.

(** ** The address format *)

(** X5: [_is_valid_stacks_address] looks at the first two characters and at the
    length, and at nothing else: an address is accepted exactly when it is
    "SP" or "ST" followed by at least 28 characters of any kind, so every
    extension of an accepted address is accepted too. *)
Theorem valid_address_is_prefix_and_length (a : string) :
  (_is_valid_stacks_address a = true
   <-> exists rest, (a = "SP" +:+ rest \/ a = "ST" +:+ rest)
                    /\ (28 <= String.length rest)%nat)
  /\ (forall s, _is_valid_stacks_address a = true ->
                _is_valid_stacks_address (a +:+ s) = true).
Proof.
  assert (Hiff : forall x, _is_valid_stacks_address x = true
                 <-> exists rest, (x = "SP" +:+ rest \/ x = "ST" +:+ rest)
                                  /\ (28 <= String.length rest)%nat).
  { intros x. unfold _is_valid_stacks_address.
    rewrite andb_true_iff, orb_true_iff, !string_prefix_iff, Nat.leb_le.
    split.
    - intros [[[t ->]|[t ->]] Hlen]; exists t;
        rewrite !string_app_cons, string_app_nil_l in Hlen;
        cbn [String.length] in Hlen; (split; [tauto|lia]).
    - intros (rest & [-> | ->] & Hlen);
        (split; [eauto|]);
        rewrite !string_app_cons, string_app_nil_l; cbn [String.length];
        lia. }
  split; [apply Hiff|]. intros s Ha.
  apply Hiff in Ha as (rest & Hpre & Hlen). apply Hiff.
  exists (rest +:+ s). rewrite string_length_app.
  split; [|lia].
  destruct Hpre as [-> | ->]; [left|right]; apply string_app_assoc.
Qed.

Lemma valid_address_is_prefix_and_length_witness :
  _is_valid_stacks_address valid_address = true
  /\ _is_valid_stacks_address (valid_address +:+ " not an address!") = true.
Proof.
  split; [reflexivity|].
  exact (proj2 (valid_address_is_prefix_and_length valid_address)
           " not an address!" eq_refl).
Defined.

(** ** The reward table *)

(** X6: the reward grows with the level: a higher level is never granted less,
    from BASIC on it is granted strictly more, the two levels below BASIC
    are granted nothing, and the microSTX amount is always 100 times the
    sats amount. *)
Theorem airdrop_amounts_grow_with_level (l1 l2 : TrustLevel) :
  (TrustLevel_value l1 <= TrustLevel_value l2 ->
   sbtc_sats (AIRDROP_AMOUNTS_get l1) <= sbtc_sats (AIRDROP_AMOUNTS_get l2)
   /\ stx_ustx (AIRDROP_AMOUNTS_get l1) <= stx_ustx (AIRDROP_AMOUNTS_get l2))
  /\ (TrustLevel_value BASIC <= TrustLevel_value l1 < TrustLevel_value l2 ->
      sbtc_sats (AIRDROP_AMOUNTS_get l1) < sbtc_sats (AIRDROP_AMOUNTS_get l2)
      /\ stx_ustx (AIRDROP_AMOUNTS_get l1) < stx_ustx (AIRDROP_AMOUNTS_get l2))
  /\ (TrustLevel_value l1 < TrustLevel_value BASIC <->
      AIRDROP_AMOUNTS l1 = None)
  /\ stx_ustx (AIRDROP_AMOUNTS_get l1) = 100 * sbtc_sats (AIRDROP_AMOUNTS_get l1).
Proof.
  destruct l1, l2; cbn; repeat split; intros; try lia; try discriminate;
    try reflexivity.
Qed.

Lemma airdrop_amounts_grow_with_level_witness :
  sbtc_sats (AIRDROP_AMOUNTS_get BASIC) < sbtc_sats (AIRDROP_AMOUNTS_get TRUSTED)
  /\ sbtc_sats (AIRDROP_AMOUNTS_get TRUSTED)
     < sbtc_sats (AIRDROP_AMOUNTS_get ESTABLISHED).
Proof.
  split.
  - apply (airdrop_amounts_grow_with_level BASIC TRUSTED). cbn. lia.
  - apply (airdrop_amounts_grow_with_level TRUSTED ESTABLISHED). cbn. lia.
Defined.

(** ** The repository lookup *)

Lemma config_loop_true (get : string -> Reply) (repo : string)
    (paths : list string) :
  Lookup.config_loop get repo paths = true
  <-> exists i p,
        paths !! i = Some p
        /\ (exists t, get (raw_url repo p) = Answered 200 t)
        /\ forall j q, (j < i)%nat -> paths !! j = Some q ->
             exists c t, get (raw_url repo q) = Answered c t /\ c <> 200.
Proof.
  induction paths as [|p paths IH]; cbn [Lookup.config_loop].
  - split; [discriminate|]. intros (i & p & Hp & _). discriminate.
  - destruct (get (raw_url repo p)) as [code text|] eqn:Hget.
    + destruct (Z.eqb_spec code 200) as [->|Hne].
      * split; [intros _|reflexivity]. exists 0%nat, p.
        split; [reflexivity|]. split; [eauto|]. intros j q Hj. lia.
      * rewrite IH. split.
        -- intros (i & q & Hq & Hok & Hbefore). exists (S i), q.
           split; [exact Hq|]. split; [exact Hok|].
           intros [|j] r Hj Hr.
           ++ injection Hr as <-. eauto.
           ++ apply (Hbefore j r); [lia|exact Hr].
        -- intros ([|i] & q & Hq & [t Hok] & Hbefore).
           ++ injection Hq as <-. congruence.
           ++ exists i, q. split; [exact Hq|]. split; [eauto|].
              intros j r Hj Hr. apply (Hbefore (S j) r); [lia|exact Hr].
    + split; [discriminate|].
      intros ([|i] & q & Hq & [t Hok] & Hbefore).
      * injection Hq as <-. congruence.
      * destruct (Hbefore 0%nat p) as (c & t' & Hc & _);
          [lia|reflexivity|congruence].
Qed.

(** X7: [_verify_github_mcp] answers [True] exactly when the request for
    package.json is answered and either it is answered with status 200 and a
    text that, lowered, contains "mcp", or one of mcp.json,
    .mcp/config.json, claude.json is answered with status 200 after the
    ones before it were answered with another status.  The test for
    "@aibtc/mcp-server" adds nothing, the content of the three files is
    never read, and a request that raises ends the lookup with [False]
    whatever the later files would show. *)
Theorem github_lookup_characterised (lower : string -> string)
    (get : string -> Reply) (repo : string) :
  Lookup._verify_github_mcp lower get repo = true
  <-> exists code text,
        get (raw_url repo "package.json") = Answered code text
        /\ ((code = 200 /\ contains "mcp" (lower text) = true)
            \/ exists i p,
                 ["mcp.json"; ".mcp/config.json"; "claude.json"] !! i = Some p
                 /\ (exists t, get (raw_url repo p) = Answered 200 t)
                 /\ forall j q, (j < i)%nat ->
                      ["mcp.json"; ".mcp/config.json"; "claude.json"] !! j
                      = Some q ->
                      exists c t, get (raw_url repo q) = Answered c t
                                  /\ c <> 200).
Proof.
  unfold Lookup._verify_github_mcp.
  destruct (get (raw_url repo "package.json")) as [code text|].
  2:{ split; [discriminate|]. intros (c & t & Hc & _). discriminate. }
  assert (Hsub : contains "@aibtc/mcp-server" (lower text)
                 || contains "mcp" (lower text)
                 = contains "mcp" (lower text)).
  { destruct (contains "mcp" (lower text)) eqn:Hmcp; [apply orb_true_r|].
    rewrite orb_false_r.
    destruct (contains "@aibtc/mcp-server" (lower text)) eqn:Hpkg;
      [|reflexivity].
    apply contains_iff in Hpkg as (before & after & Heq).
    assert (Hyes : contains "mcp" (lower text) = true); [|congruence].
    apply contains_iff. exists (before +:+ "@aibtc/"), ("-server" +:+ after).
    rewrite Heq, string_app_assoc. reflexivity. }
  cbv zeta. rewrite Hsub.
  destruct (Z.eqb_spec code 200) as [->|Hne]; cbn [andb].
  - destruct (contains "mcp" (lower text)) eqn:Hmcp.
    + split; [intros _|reflexivity]. exists 200, text.
      split; [reflexivity|]. left. split; [reflexivity|exact Hmcp].
    + rewrite config_loop_true. split.
      * intros Hloop. exists 200, text. split; [reflexivity|]. now right.
      * intros (c & t & [= <- <-] & [[_ Hf]|Hloop]); [congruence|exact Hloop].
  - rewrite config_loop_true. split.
    + intros Hloop. exists code, text. split; [reflexivity|]. now right.
    + intros (c & t & [= <- <-] & [[Hc _]|Hloop]); [congruence|exact Hloop].
Qed.

(** A repository with no package.json and no MCP configuration, only a
    file named claude.json, passes; one whose package.json request raises
    does not, although it has mcp.json. *)
Example github_lookup_examples :
  Lookup._verify_github_mcp (fun s => s)
    (fun url =>
       if String.eqb url (raw_url "owner/repo" "claude.json")
       then Answered 200 "{}" else Answered 404 "Not Found")
    "owner/repo" = true
  /\ Lookup._verify_github_mcp (fun s => s)
       (fun url =>
          if String.eqb url (raw_url "owner/repo" "package.json")
          then Failed else Answered 200 "{}")
       "owner/repo" = false.
Proof. split; vm_compute; reflexivity. Qed.

(** ** Invariants of the verifier *)

Lemma settle_eligible (clk : Clock) (rq : Request) (cp cf : list string)
    (v : MCPVerifier) :
  let res := fst (settle clk rq cp cf v) in
  let lvl := fst (_calculate_trust_level cp (req_address rq) v) in
  VerificationResult.eligible_for_airdrop res = true ->
  fst (_check_rate_limits clk (req_address rq) v) = true
  /\ enough cp = true
  /\ VerificationResult.trust_level res = lvl
  /\ VerificationResult.airdrop_amount_sats res
     = sbtc_sats (AIRDROP_AMOUNTS_get lvl)
  /\ VerificationResult.airdrop_amount_stx res
     = stx_ustx (AIRDROP_AMOUNTS_get lvl)
  /\ snd (settle clk rq cp cf v)
     = set_daily_airdrop_count (daily_airdrop_count (after_window clk v) + 1)
         (set_verified_agents
            (<[req_address rq :=
                 committed (now_commit clk) (req_address rq)
                   (req_github_repo rq) (req_bns_name rq) lvl
                   (verified_agents v !! req_address rq)]>
               (verified_agents v))
            (after_window clk v)).
Proof.
  cbv zeta. rewrite settle_eq. cbv zeta.
  destruct (fst (_check_rate_limits clk (req_address rq) v)); [|discriminate].
  destruct (enough cp); [|discriminate]. intros _. cbn [fst snd].
  rewrite record_verification_state, after_window_agents.
  repeat split.
Qed.

Lemma settle_ineligible (clk : Clock) (rq : Request) (cp cf : list string)
    (v : MCPVerifier) :
  let res := fst (settle clk rq cp cf v) in
  VerificationResult.eligible_for_airdrop res = false ->
  snd (settle clk rq cp cf v) = after_window clk v
  /\ VerificationResult.airdrop_amount_sats res = 0
  /\ VerificationResult.airdrop_amount_stx res = 0.
Proof.
  cbv zeta. rewrite settle_eq. cbv zeta.
  destruct (fst (_check_rate_limits clk (req_address rq) v));
    [|intros _; repeat split].
  destruct (enough cp); [discriminate|]. intros _. repeat split.
Qed.

(** [verify_agent] returns early without touching the verifier, or runs
    [settle]. *)
Lemma verify_agent_settles (o : Oracles) (clk : Clock) (a : string)
    (g e b : option string) (v : MCPVerifier) :
  (snd (verify_agent o clk a g e b v) = v
   /\ VerificationResult.eligible_for_airdrop
        (fst (verify_agent o clk a g e b v)) = false
   /\ VerificationResult.airdrop_amount_sats
        (fst (verify_agent o clk a g e b v)) = 0
   /\ VerificationResult.airdrop_amount_stx
        (fst (verify_agent o clk a g e b v)) = 0)
  \/ exists cp cf,
       verify_agent o clk a g e b v = settle clk (request_of a g e b) cp cf v.
Proof.
  rewrite verify_agent_eq.
  destruct (_is_valid_stacks_address a); [|left; repeat split].
  destruct (min_stx_balance v <=? stx_balance o); [|left; repeat split].
  right. eauto.
Qed.

Lemma after_window_cap (clk : Clock) (v : MCPVerifier) :
  daily_within_cap v -> daily_within_cap (after_window clk v).
Proof.
  unfold daily_within_cap, after_window, MAX_AIRDROPS_PER_DAY.
  destruct (_ <? _); cbn; lia.
Qed.

Lemma settle_cap (clk : Clock) (rq : Request) (cp cf : list string)
    (v : MCPVerifier) :
  daily_within_cap v -> daily_within_cap (snd (settle clk rq cp cf v)).
Proof.
  intros Hcap. apply (after_window_cap clk) in Hcap.
  destruct (VerificationResult.eligible_for_airdrop
              (fst (settle clk rq cp cf v))) eqn:Hel.
  - destruct (settle_eligible clk rq cp cf v Hel)
      as (Hallowed & _ & _ & _ & _ & ->).
    rewrite check_rate_limits_verdict in Hallowed.
    apply andb_true_iff in Hallowed as [Hday _].
    apply negb_true_iff, Z.leb_gt in Hday.
    unfold daily_within_cap in *. cbn. lia.
  - destruct (settle_ineligible clk rq cp cf v Hel) as (-> & _). exact Hcap.
Qed.

Lemma level_when_enough (clk : Clock) (cp : list string) (a : string)
    (v : MCPVerifier) :
  fst (_check_rate_limits clk a v) = true ->
  enough cp = true ->
  fst (_calculate_trust_level cp a v) ∈ [PENDING; BASIC; TRUSTED].
Proof.
  intros Hallowed Hen. destruct (allowed_level clk cp a v Hallowed) as [-> _].
  apply andb_true_iff in Hen as [Hlen _]. apply Nat.leb_le in Hlen.
  rewrite !elem_of_cons.
  destruct (level_of_checks_cases cp) as [[Hl _]|[[_ ->]|[_ ->]]]; [lia|..];
    destruct (verified_agents v !! a) as [r|];
    try destruct (2 <=? AgentRecord.verification_count r); tauto.
Qed.

Lemma settle_sound (clk : Clock) (rq : Request) (cp cf : list string)
    (v : MCPVerifier) :
  ledger_sound v -> ledger_sound (snd (settle clk rq cp cf v)).
Proof.
  intros Hinv.
  destruct (VerificationResult.eligible_for_airdrop
              (fst (settle clk rq cp cf v))) eqn:Hel.
  2:{ destruct (settle_ineligible clk rq cp cf v Hel) as (-> & _).
      intros a r. rewrite after_window_agents. apply Hinv. }
  destruct (settle_eligible clk rq cp cf v Hel)
    as (Hallowed & Hen & _ & _ & _ & ->).
  pose proof (level_when_enough clk cp _ v Hallowed Hen) as Hlvl.
  destruct (allowed_level clk cp _ v Hallowed) as [_ Hlt].
  intros a r. cbn [verified_agents set_daily_airdrop_count
                     set_verified_agents].
  destruct (decide (req_address rq = a)) as [<-|Hne].
  2:{ rewrite lookup_insert_ne by assumption. apply Hinv. }
  rewrite lookup_insert_eq. intros [= <-].
  specialize (Hinv (req_address rq)).
  destruct (verified_agents v !! req_address rq) as [r0|]; cbn.
  - destruct (Hinv r0 eq_refl) as (Ha & Hc & _ & Hs & Hx).
    unfold record_sound. cbn. repeat split; try assumption; lia.
  - unfold record_sound, MAX_AIRDROPS_PER_ADDRESS. cbn.
    repeat split; try assumption; lia.
Qed.

Lemma verify_call_cap (c : Call) (v : MCPVerifier) :
  daily_within_cap v -> daily_within_cap (snd (verify_call c v)).
Proof.
  intros Hcap. unfold verify_call.
  destruct (verify_agent_settles (call_oracles c) (call_clock c)
              (req_address (call_request c))
              (req_github_repo (call_request c))
              (req_mcp_endpoint (call_request c))
              (req_bns_name (call_request c)) v)
    as [[-> _]|(cp & cf & ->)]; [exact Hcap|now apply settle_cap].
Qed.

Lemma verify_call_sound (c : Call) (v : MCPVerifier) :
  ledger_sound v -> ledger_sound (snd (verify_call c v)).
Proof.
  intros Hinv. unfold verify_call.
  destruct (verify_agent_settles (call_oracles c) (call_clock c)
              (req_address (call_request c))
              (req_github_repo (call_request c))
              (req_mcp_endpoint (call_request c))
              (req_bns_name (call_request c)) v)
    as [[-> _]|(cp & cf & ->)]; [exact Hinv|now apply settle_sound].
Qed.

Lemma run_calls_keeps (P : MCPVerifier -> Prop) (cs : list Call)
    (v : MCPVerifier) :
  (forall c w, P w -> P (snd (verify_call c w))) ->
  P v -> P (snd (run_calls cs v)).
Proof.
  intros Hstep. revert v. induction cs as [|c cs IH]; intros v Hv;
    [exact Hv|].
  rewrite run_calls_cons. cbn [snd]. apply IH, Hstep, Hv.
Qed.

Lemma resume_keeps (P : MCPVerifier -> Prop) (o : Oracles) (clk : Clock)
    (rq : Request) (fr : Frame) (v : MCPVerifier) :
  (forall cp cf, P v -> P (snd (settle clk rq cp cf v))) ->
  P v -> P (snd (resume o clk rq fr v)).
Proof.
  intros Hstep Hv.
  destruct (resume_outcome o clk rq fr v "") as [[-> _]|[_ (cp & cf & ->)]];
    [exact Hv|now apply Hstep].
Qed.

Lemma run_schedule_keeps (P : MCPVerifier -> Prop) (sched : list Turn)
    (pool : list Task) (v : MCPVerifier) :
  (forall clk rq cp cf w, P w -> P (snd (settle clk rq cp cf w))) ->
  P v -> P (snd (run_schedule sched pool v)).
Proof.
  intros Hstep. revert pool v.
  induction sched as [|t sched IH]; intros pool v Hv; [exact Hv|].
  cbn [run_schedule]. unfold bind at 1.
  destruct (run_turn t pool v) as [pool' v'] eqn:Hturn.
  apply IH. replace v' with (snd (run_turn t pool v)) by now rewrite Hturn.
  unfold run_turn. destruct (pool !! turn_task t) as [tk|]; [|exact Hv].
  unfold bind, ret.
  pose proof (resume_keeps P (turn_oracles t) (turn_clock t)
                (task_request tk) (task_frame tk) v
                (fun cp cf => Hstep _ _ cp cf v) Hv) as Hres.
  destruct (resume _ _ _ _ v) as [fr w]. exact Hres.
Qed.

Lemma init_sound (url : string) (m t0 : Z) :
  ledger_sound (MCPVerifier_init url m t0).
Proof. intros a r. cbn. rewrite lookup_empty. discriminate. Qed.

Lemma init_cap (url : string) (m t0 : Z) :
  daily_within_cap (MCPVerifier_init url m t0).
Proof. unfold daily_within_cap, MAX_AIRDROPS_PER_DAY. cbn. lia. Qed.

(** X8: whatever calls a new verifier has served, its daily counter is between
    0 and [MAX_AIRDROPS_PER_DAY], and every record of its ledger is filed
    under its own address, counts between 1 and [MAX_AIRDROPS_PER_ADDRESS]
    verifications, holds one of the levels PENDING, BASIC and TRUSTED, and
    has both totals at 0: the totals are never added to. *)
Theorem new_verifier_stays_sound (url : string) (m t0 : Z) (cs : list Call) :
  let v := snd (run_calls cs (MCPVerifier_init url m t0)) in
  0 <= daily_airdrop_count v <= MAX_AIRDROPS_PER_DAY
  /\ forall a r,
       verified_agents v !! a = Some r ->
       AgentRecord.address r = a
       /\ 1 <= AgentRecord.verification_count r <= MAX_AIRDROPS_PER_ADDRESS
       /\ AgentRecord.trust_level r ∈ [PENDING; BASIC; TRUSTED]
       /\ AgentRecord.total_airdrops_sats r = 0
       /\ AgentRecord.total_airdrops_stx r = 0.
Proof.
  cbv zeta. split.
  - apply (run_calls_keeps daily_within_cap);
      [apply verify_call_cap|apply init_cap].
  - apply (run_calls_keeps ledger_sound);
      [apply verify_call_sound|apply init_sound].
Qed.

(** X9: when the requests are served concurrently on a new verifier, under
    every interleaving of their coroutines and without any assumption on
    the clock, the daily counter stays between 0 and
    [MAX_AIRDROPS_PER_DAY], and every record is filed under its own address,
    counts between 1 and [MAX_AIRDROPS_PER_ADDRESS] verifications, holds
    one of the levels PENDING, BASIC and TRUSTED and has both totals at 0. *)
Theorem concurrent_requests_keep_caps (url : string) (m t0 : Z)
    (sched : list Turn) (pool : list Task) :
  let v := snd (run_schedule sched pool (MCPVerifier_init url m t0)) in
  0 <= daily_airdrop_count v <= MAX_AIRDROPS_PER_DAY
  /\ forall a r,
       verified_agents v !! a = Some r ->
       AgentRecord.address r = a
       /\ 1 <= AgentRecord.verification_count r <= MAX_AIRDROPS_PER_ADDRESS
       /\ AgentRecord.trust_level r ∈ [PENDING; BASIC; TRUSTED]
       /\ AgentRecord.total_airdrops_sats r = 0
       /\ AgentRecord.total_airdrops_stx r = 0.
Proof.
  cbv zeta. split.
  - apply (run_schedule_keeps daily_within_cap);
      [intros; now apply settle_cap|apply init_cap].
  - apply (run_schedule_keeps ledger_sound);
      [intros; now apply settle_sound|apply init_sound].
Qed.

(** ** What an identity can be granted in all *)

Lemma amounts_of_level (l : TrustLevel) :
  stx_ustx (AIRDROP_AMOUNTS_get l) = 100 * sbtc_sats (AIRDROP_AMOUNTS_get l)
  /\ 0 <= sbtc_sats (AIRDROP_AMOUNTS_get l).
Proof. destruct l; cbn; lia. Qed.

Lemma verify_call_amounts (c : Call) (v : MCPVerifier) :
  VerificationResult.airdrop_amount_stx (fst (verify_call c v))
  = 100 * VerificationResult.airdrop_amount_sats (fst (verify_call c v))
  /\ 0 <= VerificationResult.airdrop_amount_sats (fst (verify_call c v)).
Proof.
  unfold verify_call.
  destruct (verify_agent_settles (call_oracles c) (call_clock c)
              (req_address (call_request c))
              (req_github_repo (call_request c))
              (req_mcp_endpoint (call_request c))
              (req_bns_name (call_request c)) v)
    as [(_ & _ & -> & ->)|(cp & cf & ->)]; [lia|].
  set (rq := request_of _ _ _ _).
  destruct (VerificationResult.eligible_for_airdrop
              (fst (settle (call_clock c) rq cp cf v))) eqn:Hel.
  - destruct (settle_eligible _ _ cp cf v Hel) as (_ & _ & _ & -> & -> & _).
    apply amounts_of_level.
  - destruct (settle_ineligible _ _ cp cf v Hel) as (_ & -> & ->). lia.
Qed.

Lemma verify_call_paid (c : Call) (v : MCPVerifier) (paid : string -> Z) :
  ledger_sound v ->
  ledger_paid v paid ->
  ledger_paid (snd (verify_call c v))
    (fun a => paid a
              + (if bool_decide (call_address c = a)
                 then VerificationResult.airdrop_amount_sats
                        (fst (verify_call c v))
                 else 0)).
Proof.
  intros Hsound Hpaid. unfold verify_call, call_address.
  set (rq := call_request c).
  destruct (verify_agent_settles (call_oracles c) (call_clock c)
              (req_address rq) (req_github_repo rq) (req_mcp_endpoint rq)
              (req_bns_name rq) v)
    as [(-> & _ & -> & _)|(cp & cf & ->)].
  { intros a. specialize (Hpaid a). destruct (bool_decide _);
      rewrite Z.add_0_r; exact Hpaid. }
  change (req_address (request_of (req_address rq) (req_github_repo rq)
                         (req_mcp_endpoint rq) (req_bns_name rq)))
    with (req_address rq).
  set (rq' := request_of _ _ _ _).
  assert (Haddr : req_address rq' = req_address rq) by reflexivity.
  destruct (VerificationResult.eligible_for_airdrop
              (fst (settle (call_clock c) rq' cp cf v))) eqn:Hel.
  2:{ destruct (settle_ineligible _ _ cp cf v Hel) as (-> & -> & _).
      intros a. specialize (Hpaid a). rewrite after_window_agents.
      destruct (bool_decide _); rewrite Z.add_0_r; exact Hpaid. }
  destruct (settle_eligible _ _ cp cf v Hel)
    as (Hallowed & Hen & _ & Hsats & _ & ->).
  rewrite Haddr in *. rewrite Hsats.
  destruct (allowed_level (call_clock c) cp _ v Hallowed) as [Hlvl Hlt].
  pose proof (level_when_enough (call_clock c) cp _ v Hallowed Hen) as Hin.
  destruct (amounts_of_level
              (fst (_calculate_trust_level cp (req_address rq) v)))
    as [_ Hpos].
  intros a. cbn [verified_agents set_daily_airdrop_count set_verified_agents].
  destruct (Hpaid a) as [Hnonneg Hbound].
  destruct (decide (req_address rq = a)) as [<-|Hne].
  2:{ rewrite (bool_decide_eq_false_2 _ Hne), Z.add_0_r.
      rewrite lookup_insert_ne by assumption. split; assumption. }
  rewrite (bool_decide_eq_true_2 _ eq_refl), lookup_insert_eq.
  split; [lia|].
  specialize (Hsound (req_address rq)).
  remember (fst (_calculate_trust_level cp (req_address rq) v)) as lvl
    eqn:Hdef.
  clear Hdef.
  destruct (verified_agents v !! req_address rq) as [r|]; cbn.
  - destruct (Hsound r eq_refl) as (_ & [Hone _] & _).
    unfold MAX_AIRDROPS_PER_ADDRESS in Hlt. rewrite Hlvl.
    unfold sats_after in *.
    destruct (Z.leb_spec 2 (AgentRecord.verification_count r)).
    + destruct (Z.leb_spec (AgentRecord.verification_count r) 2),
        (Z.leb_spec (AgentRecord.verification_count r + 1) 2); cbn; lia.
    + destruct (Z.leb_spec (AgentRecord.verification_count r) 2),
        (Z.leb_spec (AgentRecord.verification_count r + 1) 2); try lia;
        destruct (level_of_checks_cases cp) as [[_ ->]|[[_ ->]|[_ ->]]];
        cbn; lia.
  - rewrite Hbound, Hlvl.
    destruct (level_of_checks_cases cp) as [[_ ->]|[[_ ->]|[_ ->]]];
      cbn; lia.
Qed.

Lemma paid_sats_cons (a : string) (c : Call) (cs : list Call)
    (r : VerificationResult.t) (rs : list VerificationResult.t) :
  paid_sats a (c :: cs) (r :: rs)
  = (if bool_decide (call_address c = a)
     then VerificationResult.airdrop_amount_sats r else 0)
    + paid_sats a cs rs.
Proof. reflexivity. Qed.

Lemma run_calls_paid (cs : list Call) (v : MCPVerifier) (paid : string -> Z) :
  ledger_sound v ->
  ledger_paid v paid ->
  ledger_paid (snd (run_calls cs v))
    (fun a => paid a + paid_sats a cs (fst (run_calls cs v))).
Proof.
  revert v paid. induction cs as [|c cs IH]; intros v paid Hsound Hpaid.
  - intros a. specialize (Hpaid a). cbn. rewrite Z.add_0_r. exact Hpaid.
  - rewrite run_calls_cons. cbn [fst snd].
    pose proof (IH _ _ (verify_call_sound c v Hsound)
                  (verify_call_paid c v paid Hsound Hpaid)) as H.
    intros a. specialize (H a). cbn beta in H. rewrite paid_sats_cons.
    rewrite Z.add_assoc. exact H.
Qed.

Lemma run_calls_stx (a : string) (cs : list Call) (v : MCPVerifier) :
  paid_stx a cs (fst (run_calls cs v))
  = 100 * paid_sats a cs (fst (run_calls cs v)).
Proof.
  revert v. induction cs as [|c cs IH]; intros v; [reflexivity|].
  rewrite run_calls_cons. cbn [fst paid_stx paid_sats]. rewrite IH.
  destruct (verify_call_amounts c v) as [-> _].
  destruct (bool_decide _); lia.
Qed.

Lemma init_paid (url : string) (m t0 : Z) :
  ledger_paid (MCPVerifier_init url m t0) (fun _ => 0).
Proof. intros a. cbn. rewrite lookup_empty. split; [lia|reflexivity]. Qed.

(** X10: over the whole life of a verifier, an identity is verified successfully
    at most [MAX_AIRDROPS_PER_ADDRESS] times and is granted at most 17000
    sats and 1700000 microSTX: two awards at the BASIC rate at most, then
    TRUSTED ones. *)
Theorem lifetime_grant_is_bounded (url : string) (m t0 : Z) (cs : list Call)
    (a : string) :
  let rs := fst (run_calls cs (MCPVerifier_init url m t0)) in
  0 <= successes a cs rs <= MAX_AIRDROPS_PER_ADDRESS
  /\ 0 <= paid_sats a cs rs <= 17000
  /\ 0 <= paid_stx a cs rs <= 1700000.
Proof.
  cbv zeta.
  pose proof (run_calls_counts cs _ _ (init_counts url m t0) a) as Hcount.
  pose proof (run_calls_paid cs _ _ (init_sound url m t0)
                (init_paid url m t0) a) as [Hpos Hpaid].
  pose proof (run_calls_keeps ledger_sound cs _ verify_call_sound
                (init_sound url m t0) a) as Hsound.
  cbn beta in Hcount, Hpos, Hpaid. rewrite run_calls_stx.
  destruct (verified_agents _ !! a) as [r|].
  - destruct (Hsound r eq_refl) as (_ & [Hlo Hhi] & _).
    unfold MAX_AIRDROPS_PER_ADDRESS in *.
    assert (sats_after (AgentRecord.verification_count r) <= 17000).
    { unfold sats_after.
      destruct (Z.leb_spec (AgentRecord.verification_count r) 2); lia. }
    lia.
  - unfold MAX_AIRDROPS_PER_ADDRESS. lia.
Qed.

(** The bound is reached: five full verifications, 25 hours apart. *)
Example lifetime_grant_is_reached :
  let cs := [full_call 25; full_call 50; full_call 75; full_call 100;
             full_call 125; full_call 150; full_call 175] in
  paid_sats valid_address cs (fst (run_calls cs verifier)) = 17000
  /\ paid_stx valid_address cs (fst (run_calls cs verifier)) = 1700000.
Proof. split; vm_compute; reflexivity. Qed.

(** ** Awards within one daily window *)

Lemma after_window_idle (clk : Clock) (v : MCPVerifier) :
  now_window clk - last_reset v <= timedelta_hours 24 ->
  after_window clk v = v.
Proof.
  intros Hle. unfold after_window.
  destruct (Z.ltb_spec (timedelta_hours 24) (now_window clk - last_reset v));
    [lia|reflexivity].
Qed.

Lemma verify_call_same_window (c : Call) (v : MCPVerifier) :
  now_window (call_clock c) - last_reset v <= timedelta_hours 24 ->
  daily_airdrop_count (snd (verify_call c v))
  = daily_airdrop_count v
    + (if VerificationResult.eligible_for_airdrop (fst (verify_call c v))
       then 1 else 0)
  /\ last_reset (snd (verify_call c v)) = last_reset v.
Proof.
  intros Hidle. unfold verify_call.
  destruct (verify_agent_settles (call_oracles c) (call_clock c)
              (req_address (call_request c))
              (req_github_repo (call_request c))
              (req_mcp_endpoint (call_request c))
              (req_bns_name (call_request c)) v)
    as [(-> & -> & _)|(cp & cf & ->)]; [split; [lia|reflexivity]|].
  set (rq := request_of _ _ _ _).
  destruct (VerificationResult.eligible_for_airdrop
              (fst (settle (call_clock c) rq cp cf v))) eqn:Hel.
  - destruct (settle_eligible _ _ cp cf v Hel) as (_ & _ & _ & _ & _ & ->).
    rewrite (after_window_idle _ _ Hidle). split; reflexivity.
  - destruct (settle_ineligible _ _ cp cf v Hel) as (-> & _).
    rewrite (after_window_idle _ _ Hidle). split; [lia|reflexivity].
Qed.

(** X11: as long as no call finds the daily window run out, the daily counter
    counts the awards, so that a window never holds more than
    [MAX_AIRDROPS_PER_DAY] of them, whoever they go to. *)
Theorem awards_per_window_are_capped (cs : list Call) (v : MCPVerifier) :
  0 <= daily_airdrop_count v <= MAX_AIRDROPS_PER_DAY ->
  Forall (fun c => now_window (call_clock c) - last_reset v
                   <= timedelta_hours 24) cs ->
  let rs := fst (run_calls cs v) in
  let v' := snd (run_calls cs v) in
  daily_airdrop_count v' = daily_airdrop_count v + awards rs
  /\ last_reset v' = last_reset v
  /\ 0 <= awards rs <= MAX_AIRDROPS_PER_DAY - daily_airdrop_count v.
Proof.
  intros Hcap Hidle. cbv zeta.
  assert (Hcount : daily_airdrop_count (snd (run_calls cs v))
                   = daily_airdrop_count v + awards (fst (run_calls cs v))
                   /\ last_reset (snd (run_calls cs v)) = last_reset v
                   /\ 0 <= awards (fst (run_calls cs v))).
  { clear Hcap. revert v Hidle.
    induction cs as [|c cs IH]; intros v Hidle;
      [cbn; repeat split; lia|].
    apply Forall_cons in Hidle as [Hc Hcs].
    rewrite run_calls_cons. cbn [fst snd awards].
    destruct (verify_call_same_window c v Hc) as [Hd Hr].
    rewrite <- Hr in Hcs. destruct (IH _ Hcs) as (-> & -> & Hpos).
    rewrite Hd, Hr. repeat split; destruct (_ : bool); lia. }
  destruct Hcount as (Hd & Hr & Hpos).
  pose proof (run_calls_keeps daily_within_cap cs v verify_call_cap Hcap)
    as Hafter.
  unfold daily_within_cap in Hafter. repeat split; lia.
Qed.

Lemma awards_per_window_are_capped_witness :
  VerificationResult.eligible_for_airdrop
    <$> fst (run_calls eleven_calls verifier)
  = [true; true; true; true; true; true; true; true; true; true; false]
  /\ awards (fst (run_calls eleven_calls verifier)) <= MAX_AIRDROPS_PER_DAY.
Proof.
  split; [vm_compute; reflexivity|].
  destruct (awards_per_window_are_capped eleven_calls verifier)
    as (_ & _ & _ & Hle).
  - vm_compute. split; discriminate.
  - repeat constructor; vm_compute; discriminate.
  - change (daily_airdrop_count verifier) with 0 in Hle. lia.
Defined.

(** ** Awards to one identity are a cooldown apart *)

Lemma verify_call_active_since (a : string) (t : Z) (c : Call)
    (v : MCPVerifier) :
  clock_ordered c -> active_since a t v ->
  active_since a t (snd (verify_call c v)).
Proof.
  intros Hclk (r & Hr & Ht). unfold active_since.
  rewrite verify_call_ledger.
  destruct (VerificationResult.eligible_for_airdrop (fst (verify_call c v)))
    eqn:Hel; [|eauto].
  destruct (decide (call_address c = a)) as [<-|Hne].
  2:{ rewrite lookup_insert_ne by assumption. eauto. }
  rewrite lookup_insert_eq. eexists. split; [reflexivity|].
  rewrite committed_last_activity.
  apply verify_agent_eligible_allowed in Hel.
  rewrite check_rate_limits_verdict in Hel.
  apply andb_true_iff in Hel as [_ Hident].
  fold (call_address c) in Hident. rewrite Hr in Hident.
  apply andb_true_iff in Hident as [Hcool _].
  apply negb_true_iff, Z.ltb_ge in Hcool.
  unfold clock_ordered in Hclk.
  unfold timedelta_hours, COOLDOWN_HOURS in Hcool. lia.
Qed.

Lemma run_calls_active_since (a : string) (t : Z) (cs : list Call)
    (v : MCPVerifier) :
  Forall clock_ordered cs -> active_since a t v ->
  active_since a t (snd (run_calls cs v)).
Proof.
  intros Hclk. revert v.
  induction Hclk as [|c cs Hc _ IH]; intros v Hv; [exact Hv|].
  rewrite run_calls_cons. cbn [snd].
  apply IH. now apply verify_call_active_since.
Qed.

(** X12: two awards to the same identity are at least [COOLDOWN_HOURS] apart,
    whatever the verifier served in between: the second request tested the
    cooldown no earlier than 24 hours after the first was committed. *)
Theorem awards_are_a_cooldown_apart (c1 c2 : Call) (between : list Call)
    (v : MCPVerifier) :
  Forall clock_ordered between ->
  call_address c1 = call_address c2 ->
  let v1 := snd (verify_call c1 v) in
  let v2 := snd (run_calls between v1) in
  VerificationResult.eligible_for_airdrop (fst (verify_call c1 v)) = true ->
  VerificationResult.eligible_for_airdrop (fst (verify_call c2 v2)) = true ->
  now_commit (call_clock c1) + timedelta_hours COOLDOWN_HOURS
  <= now_cooldown (call_clock c2).
Proof.
  intros Hclk Hsame. cbv zeta. intros Hfirst Hsecond.
  assert (Hactive : active_since (call_address c1) (now_commit (call_clock c1))
                      (snd (verify_call c1 v))).
  { unfold active_since. rewrite verify_call_ledger, Hfirst, lookup_insert_eq.
    eexists. split; [reflexivity|]. rewrite committed_last_activity. lia. }
  assert (Hlater : active_since (call_address c1)
                     (now_commit (call_clock c1))
                     (snd (run_calls between (snd (verify_call c1 v))))).
  { now apply run_calls_active_since. }
  destruct Hlater as (r & Hr & Ht).
  apply verify_agent_eligible_allowed in Hsecond.
  rewrite check_rate_limits_verdict in Hsecond.
  apply andb_true_iff in Hsecond as [_ Hident].
  fold (call_address c2) in Hident. rewrite <- Hsame, Hr in Hident.
  apply andb_true_iff in Hident as [Hcool _].
  apply negb_true_iff, Z.ltb_ge in Hcool. lia.
Qed.

Lemma awards_are_a_cooldown_apart_witness :
  VerificationResult.eligible_for_airdrop
    (fst (verify_call (full_call 1) verifier)) = true
  /\ VerificationResult.eligible_for_airdrop
       (fst (verify_call (full_call 25)
               (snd (run_calls [full_call 2; full_call 24]
                       (snd (verify_call (full_call 1) verifier)))))) = true
  /\ timedelta_hours 1 + timedelta_hours COOLDOWN_HOURS <= timedelta_hours 25.
Proof.
  split; [reflexivity|]. split; [vm_compute; reflexivity|].
  apply (awards_are_a_cooldown_apart (full_call 1) (full_call 25)
           [full_call 2; full_call 24] verifier).
  - repeat constructor; vm_compute; discriminate.
  - reflexivity.
  - reflexivity.
  - vm_compute. reflexivity.
Defined.

(** ** Records keep what they were created with *)

Lemma verify_call_keeps_evidence (c : Call) (v : MCPVerifier) (a : string)
    (r : AgentRecord.t) :
  verified_agents v !! a = Some r ->
  exists r',
    verified_agents (snd (verify_call c v)) !! a = Some r'
    /\ AgentRecord.address r' = AgentRecord.address r
    /\ AgentRecord.github_repo r' = AgentRecord.github_repo r
    /\ AgentRecord.bns_name r' = AgentRecord.bns_name r
    /\ AgentRecord.first_seen r' = AgentRecord.first_seen r
    /\ AgentRecord.total_airdrops_sats r' = AgentRecord.total_airdrops_sats r
    /\ AgentRecord.total_airdrops_stx r' = AgentRecord.total_airdrops_stx r.
Proof.
  intros Hr. rewrite verify_call_ledger.
  destruct (VerificationResult.eligible_for_airdrop _);
    [|exists r; repeat split; assumption].
  destruct (decide (call_address c = a)) as [<-|Hne].
  - rewrite lookup_insert_eq, Hr. eexists. split; [reflexivity|].
    repeat split.
  - rewrite lookup_insert_ne by assumption. exists r.
    repeat split; assumption.
Qed.

(** X13: a record keeps, through every later call, the address, repository and
    name it was created with, its [first_seen] stamp and its totals: the
    evidence of later requests is not stored.  And the calls made for other
    addresses do not touch the entry of an address at all. *)
Theorem records_keep_their_first_evidence (cs : list Call) (v : MCPVerifier)
    (a : string) :
  (forall r,
     verified_agents v !! a = Some r ->
     exists r',
       verified_agents (snd (run_calls cs v)) !! a = Some r'
       /\ AgentRecord.address r' = AgentRecord.address r
       /\ AgentRecord.github_repo r' = AgentRecord.github_repo r
       /\ AgentRecord.bns_name r' = AgentRecord.bns_name r
       /\ AgentRecord.first_seen r' = AgentRecord.first_seen r
       /\ AgentRecord.total_airdrops_sats r' = AgentRecord.total_airdrops_sats r
       /\ AgentRecord.total_airdrops_stx r' = AgentRecord.total_airdrops_stx r)
  /\ (Forall (fun c => call_address c <> a) cs ->
      verified_agents (snd (run_calls cs v)) !! a = verified_agents v !! a).
Proof.
  split.
  - revert v. induction cs as [|c cs IH]; intros v r Hr.
    + exists r. repeat split; assumption.
    + rewrite run_calls_cons. cbn [snd].
      destruct (verify_call_keeps_evidence c v a r Hr)
        as (r1 & Hr1 & H1 & H2 & H3 & H4 & H5 & H6).
      destruct (IH _ _ Hr1) as (r2 & Hr2 & G1 & G2 & G3 & G4 & G5 & G6).
      exists r2. repeat split; congruence.
  - revert v. induction cs as [|c cs IH]; intros v Hother; [reflexivity|].
    apply Forall_cons in Hother as [Hc Hcs].
    rewrite run_calls_cons. cbn [snd]. rewrite (IH _ Hcs).
    rewrite verify_call_ledger. destruct (_ : bool); [|reflexivity].
    now rewrite lookup_insert_ne.
Qed.

Lemma records_keep_their_first_evidence_witness :
  let later := {| call_oracles := all_pass;
                  call_clock := at_hour 30;
                  call_request := request_of valid_address (Some "other/repo")
                                    (Some "https://mcp.test.com")
                                    (Some "agent.btc") |} in
  verified_agents (snd (run_calls [later] verifier_after_first)) !! valid_address
  = Some (AgentRecord.mk valid_address (Some "test/mcp-agent") None BASIC 0 0
            2 (timedelta_hours 1) (timedelta_hours 30)).
Proof.
  cbv zeta.
  destruct (proj1 (records_keep_their_first_evidence
                     [{| call_oracles := all_pass;
                         call_clock := at_hour 30;
                         call_request :=
                           request_of valid_address (Some "other/repo")
                             (Some "https://mcp.test.com")
                             (Some "agent.btc") |}]
                     verifier_after_first valid_address)
              (AgentRecord.mk valid_address (Some "test/mcp-agent") None BASIC
                 0 0 1 (timedelta_hours 1) (timedelta_hours 1)))
    as (r' & Hr' & _).
  - vm_compute. reflexivity.
  - vm_compute. reflexivity.
Defined.

(** ** Statistics *)

Lemma count_level_partition (rs : list AgentRecord.t) :
  (count_level UNKNOWN rs + count_level PENDING rs + count_level BASIC rs
   + count_level TRUSTED rs + count_level ESTABLISHED rs = length rs)%nat.
Proof.
  unfold count_level. induction rs as [|r rs IH]; [reflexivity|].
  rewrite !filter_cons.
  repeat case_decide; cbn [length]; try congruence; try lia.
  destruct (AgentRecord.trust_level r); congruence.
Qed.

Lemma count_level_absent (level : TrustLevel) (rs : list AgentRecord.t) :
  Forall (fun r => AgentRecord.trust_level r <> level) rs ->
  count_level level rs = 0%nat.
Proof.
  unfold count_level. induction 1 as [|r rs Hr _ IH]; [reflexivity|].
  rewrite filter_cons. case_decide; [contradiction|exact IH].
Qed.

Lemma agent_records_sound (v : MCPVerifier) :
  ledger_sound v ->
  Forall (fun r => AgentRecord.trust_level r ∈ [PENDING; BASIC; TRUSTED])
    (agent_records v).
Proof.
  intros Hsound. unfold agent_records. apply Forall_fmap, Forall_forall.
  intros [a r] Hin. apply elem_of_map_to_list in Hin.
  apply (Hsound a r Hin).
Qed.

(** X14: [get_stats] does not change the verifier, and its histogram is a
    partition of the ledger: the five counts add up to [total_verified]. *)
Theorem stats_histogram_partitions_ledger (v : MCPVerifier) :
  let stats := fst (get_stats v) in
  snd (get_stats v) = v
  /\ (trust_distribution stats UNKNOWN + trust_distribution stats PENDING
      + trust_distribution stats BASIC + trust_distribution stats TRUSTED
      + trust_distribution stats ESTABLISHED = total_verified stats)%nat
  /\ total_verified stats = size (verified_agents v)
  /\ daily_airdrops stats = daily_airdrop_count v.
Proof.
  cbv zeta. unfold get_stats. run_monad. repeat split.
  rewrite count_level_partition. unfold agent_records.
  now rewrite length_fmap, length_map_to_list.
Qed.

(** X15: on a verifier that has only served calls since it was created, the
    statistics never show an agent at UNKNOWN or at ESTABLISHED, so that
    PENDING, BASIC and TRUSTED make up the total, and [daily_airdrops] never
    exceeds [max_daily]. *)
Theorem stats_of_a_new_verifier (url : string) (m t0 : Z) (cs : list Call) :
  let stats :=
    fst (get_stats (snd (run_calls cs (MCPVerifier_init url m t0)))) in
  trust_distribution stats UNKNOWN = 0%nat
  /\ trust_distribution stats ESTABLISHED = 0%nat
  /\ (trust_distribution stats PENDING + trust_distribution stats BASIC
      + trust_distribution stats TRUSTED = total_verified stats)%nat
  /\ 0 <= daily_airdrops stats <= max_daily stats.
Proof.
  cbv zeta.
  set (v := snd (run_calls cs (MCPVerifier_init url m t0))).
  assert (Hsound : ledger_sound v)
    by (apply (run_calls_keeps ledger_sound);
        [apply verify_call_sound|apply init_sound]).
  assert (Hcap : daily_within_cap v)
    by (apply (run_calls_keeps daily_within_cap);
        [apply verify_call_cap|apply init_cap]).
  pose proof (agent_records_sound v Hsound) as Hlevels.
  assert (Hunknown : count_level UNKNOWN (agent_records v) = 0%nat).
  { apply count_level_absent. eapply Forall_impl; [exact Hlevels|].
    intros r Hr Heq. cbn beta in Hr. rewrite Heq in Hr.
    rewrite !elem_of_cons, elem_of_nil in Hr.
    destruct Hr as [?|[?|[?|[]]]]; discriminate. }
  assert (Hestablished : count_level ESTABLISHED (agent_records v) = 0%nat).
  { apply count_level_absent. eapply Forall_impl; [exact Hlevels|].
    intros r Hr Heq. cbn beta in Hr. rewrite Heq in Hr.
    rewrite !elem_of_cons, elem_of_nil in Hr.
    destruct Hr as [?|[?|[?|[]]]]; discriminate. }
  pose proof (count_level_partition (agent_records v)) as Hsum.
  unfold get_stats. run_monad.
  split; [exact Hunknown|]. split; [exact Hestablished|].
  split; [|exact Hcap].
  unfold agent_records in *. rewrite length_fmap, length_map_to_list in Hsum.
  lia.
Qed.

(** [test_stats_empty_initially] and [test_stats_update_after_verification] *)
Example test_statistics :
  total_verified (fst (get_stats verifier)) = 0%nat
  /\ daily_airdrops (fst (get_stats verifier)) = 0
  /\ let v := snd (_record_verification (at_hour 1) valid_address
                     (Some "test/repo") None BASIC verifier) in
     total_verified (fst (get_stats v)) = 1%nat
     /\ daily_airdrops (fst (get_stats v)) = 1
     /\ trust_distribution (fst (get_stats v)) BASIC = 1%nat.
Proof. repeat split; vm_compute; reflexivity. Qed.

(** ** Evidence and outages *)

(** X16: the stake alone is never enough: an eligible result means that the
    address was well formed, the balance sufficient, and at least one of
    the repository, endpoint and name checks was made and passed. *)
Theorem eligibility_needs_evidence (o : Oracles) (clk : Clock) (a : string)
    (g e b : option string) (v : MCPVerifier) :
  VerificationResult.eligible_for_airdrop (fst (verify_agent o clk a g e b v))
  = true ->
  _is_valid_stacks_address a = true
  /\ min_stx_balance v <= stx_balance o
  /\ (truthy g && _verify_github_mcp o g
      || truthy e && _verify_mcp_endpoint o e
      || truthy b && _verify_bns_ownership o a b) = true.
Proof.
  rewrite verify_agent_eq.
  destruct (_is_valid_stacks_address a); [|discriminate].
  destruct (Z.leb_spec (min_stx_balance v) (stx_balance o)); [|discriminate].
  rewrite settle_eq. cbv zeta.
  destruct (fst (_check_rate_limits _ _ _)); [|discriminate].
  destruct (enough _) eqn:Hen; [|discriminate]. intros _.
  split; [reflexivity|]. split; [assumption|].
  unfold _verify_github_mcp, _verify_mcp_endpoint, _verify_bns_ownership.
  unfold passed_after_checks in Hen.
  destruct (truthy g && github_mcp o),
    (truthy e && _verify_mcp_endpoint_of (mcp_probe o)),
    (truthy b && bns_owned o); try reflexivity.
  vm_compute in Hen. discriminate Hen.
Qed.

Lemma eligibility_needs_evidence_witness :
  truthy None && _verify_github_mcp all_pass None
  || truthy None && _verify_mcp_endpoint all_pass None
  || truthy (Some "agent.btc")
     && _verify_bns_ownership all_pass valid_address (Some "agent.btc")
  = true.
Proof.
  apply (eligibility_needs_evidence all_pass (at_hour 1) valid_address None
           None (Some "agent.btc") verifier).
  reflexivity.
Defined.

Lemma github_lookup_outage (lower : string -> string) (get : string -> Reply)
    (repo : string) :
  (forall url, get url = Failed) ->
  Lookup._verify_github_mcp lower get repo = false.
Proof. intros Hdown. unfold Lookup._verify_github_mcp. now rewrite Hdown. Qed.

(** X17: when every HTTP request fails, no request is eligible, whatever
    evidence is named and for every configured minimum balance whose stake
    message can be formatted (below [(2^1024 - 2^970) * 10^6] in absolute
    value): the coroutine returns, nothing is granted and the ledger is
    left alone.  With a positive minimum the request already ends at the
    stake check. *)
Theorem outage_grants_nothing (int_of_str : string -> option Z)
    (json : string -> option JSON) (lower : string -> string)
    (get : string -> Reply) (post : string -> Probe) (clk : Clock)
    (a : string) (g e b : option string) (v : MCPVerifier) :
  (forall url, get url = Failed) ->
  (forall url, post url = Raised) ->
  true_division_overflows (min_stx_balance v) 1000000 = false ->
  let run := Remote.run_verify_agent int_of_str json lower get post clk a g e b
               v in
  verify_agent_outcome
    (Remote.oracles int_of_str json lower get post (api_url v) a g e b)
    clk a g e b v = (Returned (fst run), snd run)
  /\ VerificationResult.eligible_for_airdrop (fst run) = false
  /\ VerificationResult.airdrop_amount_sats (fst run) = 0
  /\ VerificationResult.airdrop_amount_stx (fst run) = 0
  /\ verified_agents (snd run) = verified_agents v
  /\ (_is_valid_stacks_address a = true -> 0 < min_stx_balance v ->
      run = (_fail_result ["valid_address"] ["insufficient_balance"]
               (Need_at_least (min_stx_balance v)), v)).
Proof.
  intros Hget Hpost Hfits. cbv zeta.
  change (Remote.run_verify_agent int_of_str json lower get post clk a g e b v)
    with (verify_agent
            (Remote.oracles int_of_str json lower get post (api_url v) a g e b)
            clk a g e b v).
  set (o := Remote.oracles int_of_str json lower get post (api_url v) a g e b).
  split.
  { destruct (verify_agent_outcome_cases o clk a g e b v)
      as [(_ & _ & _ & Hraises)|[Hret _]]; [congruence|exact Hret]. }
  assert (Hbal : stx_balance o = 0).
  { unfold o, Remote.oracles, Remote._check_stx_balance. cbn [stx_balance].
    now rewrite Hget. }
  assert (Hgit : github_mcp o = false).
  { unfold o, Remote.oracles. cbn [github_mcp].
    destruct g; [now apply github_lookup_outage|reflexivity]. }
  assert (Hprobe : _verify_mcp_endpoint_of (mcp_probe o) = false).
  { unfold o, Remote.oracles. cbn [mcp_probe].
    destruct e; [now rewrite Hpost|reflexivity]. }
  assert (Hbns : bns_owned o = false).
  { unfold o, Remote.oracles, Remote._verify_bns_ownership. cbn [bns_owned].
    destruct b; [now rewrite Hget|reflexivity]. }
  rewrite verify_agent_eq, Hbal.
  destruct (_is_valid_stacks_address a).
  2:{ cbn. repeat (split; [reflexivity|]). intros Hf. discriminate Hf. }
  destruct (Z.leb_spec (min_stx_balance v) 0) as [Hle|Hlt].
  2:{ cbn. repeat (split; [reflexivity|]). reflexivity. }
  rewrite settle_eq. cbv zeta.
  assert (Hen : enough (passed_after_checks o g e b) = false).
  { unfold passed_after_checks. rewrite Hgit, Hprobe, Hbns, !andb_false_r.
    reflexivity. }
  rewrite Hen.
  destruct (fst (_check_rate_limits _ _ _)); cbn [fst snd _fail_result
    VerificationResult.eligible_for_airdrop
    VerificationResult.airdrop_amount_sats
    VerificationResult.airdrop_amount_stx];
    rewrite after_window_agents; repeat split; intros; lia.
Qed.

Lemma outage_grants_nothing_witness :
  Remote.run_verify_agent (fun _ => None) (fun _ => None) (fun s => s)
    (fun _ => Failed) (fun _ => Raised) (at_hour 1) valid_address
    (Some "test/mcp-agent") (Some "https://mcp.test.com") (Some "agent.btc")
    verifier
  = (_fail_result ["valid_address"] ["insufficient_balance"]
       (Need_at_least 100000), verifier).
Proof.
  apply (outage_grants_nothing (fun _ => None) (fun _ => None) (fun s => s)
           (fun _ => Failed) (fun _ => Raised) (at_hour 1) valid_address
           (Some "test/mcp-agent") (Some "https://mcp.test.com")
           (Some "agent.btc") verifier); reflexivity.
Defined.

(** The balance lookup on the document the API serves, and on documents
    that are not of that shape. *)
Example check_stx_balance_examples :
  let api := {| stx_balance := 0; github_mcp := false; mcp_probe := Raised;
                bns_owned := false |} in
  let served (body : JSON) :=
    Remote._check_stx_balance
      (fun s => if String.eqb s "250000" then Some 250000 else None)
      (fun _ => Some body) (fun _ => Answered 200 "")
      "https://api.hiro.so" valid_address in
  served (JDict (fun k =>
            if String.eqb k "stx"
            then Some (JDict (fun k' =>
                   if String.eqb k' "balance" then Some (JStr "250000")
                   else None))
            else None)) = 250000
  /\ served (JDict (fun _ => None)) = 0
  /\ served (JDict (fun _ => Some JNull)) = 0
  /\ served (JList []) = 0.
Proof. repeat split. Qed.

(** ** How the grant depends on the history *)

(** X18: on a verifier that has only served calls since it was created, an
    eligible request of an identity with two or more earlier awards is
    granted the TRUSTED amounts whatever its evidence; with fewer than two
    the grant goes by the number of checks passed: nothing for three, the
    BASIC amounts for four or five. *)
Theorem grant_follows_history (url : string) (m t0 : Z) (cs : list Call)
    (c : Call) :
  let v0 := MCPVerifier_init url m t0 in
  let earlier := successes (call_address c) cs (fst (run_calls cs v0)) in
  let res := fst (verify_call c (snd (run_calls cs v0))) in
  let passed := length (VerificationResult.checks_passed res) in
  VerificationResult.eligible_for_airdrop res = true ->
  (2 <= earlier ->
   VerificationResult.trust_level res = TRUSTED
   /\ VerificationResult.airdrop_amount_sats res = 5000
   /\ VerificationResult.airdrop_amount_stx res = 500000)
  /\ (earlier < 2 ->
      (passed = 3%nat ->
       VerificationResult.trust_level res = PENDING
       /\ VerificationResult.airdrop_amount_sats res = 0
       /\ VerificationResult.airdrop_amount_stx res = 0)
      /\ ((4 <= passed)%nat ->
          VerificationResult.trust_level res = BASIC
          /\ VerificationResult.airdrop_amount_sats res = 1000
          /\ VerificationResult.airdrop_amount_stx res = 100000))
  /\ (3 <= passed <= 5)%nat.
Proof.
  cbv zeta.
  pose proof (run_calls_counts cs _ _ (init_counts url m t0) (call_address c))
    as Hcount. cbn beta in Hcount. rewrite Z.add_0_l in Hcount.
  set (v := snd (run_calls cs (MCPVerifier_init url m t0))) in *.
  set (n := successes (call_address c) cs _) in *.
  unfold verify_call. fold (call_address c).
  rewrite verify_agent_eq.
  destruct (_is_valid_stacks_address (call_address c)); [|discriminate].
  destruct (min_stx_balance v <=? stx_balance (call_oracles c));
    [|discriminate].
  set (cp := passed_after_checks _ _ _ _).
  set (cf := failed_after_checks _ _ _).
  set (rq := request_of _ _ _ _).
  assert (Hlen : (length cp <= 5)%nat).
  { unfold cp, passed_after_checks. rewrite !length_app.
    repeat match goal with
           | |- context [if ?x then _ else _] => destruct x
           end; cbn; lia. }
  intros Hel. rewrite settle_checks_passed.
  destruct (settle_eligible _ _ cp cf v Hel)
    as (Hallowed & Hen & -> & -> & -> & _).
  change (req_address rq) with (call_address c) in *.
  destruct (allowed_level (call_clock c) cp _ v Hallowed) as [-> _].
  apply andb_true_iff in Hen as [Hthree _]. apply Nat.leb_le in Hthree.
  destruct (verified_agents v !! call_address c) as [r|].
  - destruct Hcount as [Hn _]. rewrite Hn.
    destruct (Z.leb_spec 2 n).
    + split; [intros _; repeat split|]. split; [lia|lia].
    + split; [lia|]. split; [|lia]. intros _.
      unfold level_of_checks. split.
      * intros ->. repeat split.
      * intros Hfour. apply Nat.leb_le in Hfour. rewrite Hfour. repeat split.
  - split; [lia|]. split; [|lia]. intros _.
    unfold level_of_checks. split.
    + intros ->. repeat split.
    + intros Hfour. apply Nat.leb_le in Hfour. rewrite Hfour. repeat split.
Qed.

Lemma grant_follows_history_witness :
  let res := fst (verify_call (full_call 75)
                    (snd (run_calls [full_call 25; full_call 50] verifier))) in
  VerificationResult.trust_level res = TRUSTED
  /\ VerificationResult.airdrop_amount_sats res = 5000
  /\ VerificationResult.airdrop_amount_stx res = 500000.
Proof.
  cbv zeta.
  destruct (grant_follows_history "https://api.hiro.so" 100000 0
              [full_call 25; full_call 50] (full_call 75))
    as (Htrusted & _).
  - vm_compute. reflexivity.
  - apply Htrusted. vm_compute. discriminate.
Defined.
